(** * tracing_tutorial.tracing.backends: backend selection and exporter wiring

    A shallow embedding of [src/tracing_tutorial/tracing/backends.py] and the
    properties of its dispatcher, endpoint resolvers, transport selector and
    header parser.

    Conventions of the embedding.
    - A Python [str] is a [string]; every [ascii] stands for the Unicode code
      point of the same number, so the strings covered are those over the
      code points below 256.  [str.lower], [str.strip] and [str.encode] are
      written out for exactly this range.
    - [os.environ] is a [gmap string string]; a variable is set when its
      lookup is [Some _], and may be set to the empty string.
    - A [dict] of headers or attributes is a [gmap string string].
    - Mutable objects (tracer providers) live in a store addressed by
      references; the process-wide state is the record [World], threaded
      through a state-and-exception monad [Py].
    - An exporter is represented by the call that constructs it, and a
      resource by its attributes with string values; what the OpenTelemetry
      SDK adds of its own to a resource is a component of the state. *)

From Stdlib Require Import Ascii ZArith Lia Bool.
From stdpp Require Import gmap strings list fin_maps.

Local Open Scope Z_scope.
Local Open Scope nat_scope.

(** ** Python string primitives *)

Module PyStr.

Definition code (c : ascii) : Z := Z.of_nat (nat_of_ascii c).

Definition chr (z : Z) : ascii := ascii_of_nat (Z.to_nat z).

Definition in_range (lo hi z : Z) : bool := ((lo <=? z) && (z <=? hi))%Z.

(** [str.isspace] on one character, for code points below 256: TAB..CR,
    FS..US, SPACE, NEL and NBSP. *)
Definition isspace (c : ascii) : bool :=
  let z := code c in
  in_range 9 13 z || in_range 28 32 z || (z =? 133)%Z || (z =? 160)%Z.

(** The lower-case mapping of one character below 256: A..Z, and the
    Latin-1 capitals U+00C0..U+00DE apart from the multiplication sign. *)
Definition lower_char (c : ascii) : ascii :=
  let z := code c in
  if in_range 65 90 z then chr (z + 32)
  else if in_range 192 222 z && negb (z =? 215)%Z then chr (z + 32)
  else c.

(** [s.lower()] *)
Fixpoint lower (s : string) : string :=
  match s with
  | EmptyString => EmptyString
  | String c s' => String (lower_char c) (lower s')
  end.

(** [s.startswith(p)] *)
Fixpoint startswith (p s : string) : bool :=
  match p, s with
  | EmptyString, _ => true
  | String a p', String b s' => Ascii.eqb a b && startswith p' s'
  | String _ _, EmptyString => false
  end.

(** [s.endswith(p)]: some tail of [s] is [p]. *)
Fixpoint endswith (p s : string) : bool :=
  String.eqb p s ||
  match s with
  | EmptyString => false
  | String _ s' => endswith p s'
  end.

(** [p in s]: [p] is a prefix of some tail of [s]. *)
Fixpoint contains (p s : string) : bool :=
  startswith p s ||
  match s with
  | EmptyString => false
  | String _ s' => contains p s'
  end.

(** [s.split(sep, maxsplit)] for a one-character separator; [maxsplit] is
    [None] for the default (no limit). *)
Definition may_split (maxsplit : option nat) : bool :=
  match maxsplit with Some O => false | _ => true end.

Definition after_split (maxsplit : option nat) : option nat :=
  match maxsplit with Some n => Some (Nat.pred n) | None => None end.

Fixpoint split (sep : ascii) (maxsplit : option nat) (s : string)
  : list string :=
  match s with
  | EmptyString => [EmptyString]
  | String c s' =>
      if Ascii.eqb c sep && may_split maxsplit
      then EmptyString :: split sep (after_split maxsplit) s'
      else match split sep maxsplit s' with
           | piece :: rest => String c piece :: rest
           | [] => [String c EmptyString]
           end
  end.

(** [s.lstrip()], [s.rstrip()], [s.strip()] *)
Fixpoint lstrip (s : string) : string :=
  match s with
  | EmptyString => EmptyString
  | String c s' => if isspace c then lstrip s' else s
  end.

Fixpoint rstrip (s : string) : string :=
  match s with
  | EmptyString => EmptyString
  | String c s' =>
      match rstrip s' with
      | EmptyString => if isspace c then EmptyString else String c EmptyString
      | r => String c r
      end
  end.

Definition strip (s : string) : string := rstrip (lstrip s).

(** Truth value of a string, and of an [Optional[str]]. *)
Definition truthy (s : string) : bool := negb (String.eqb s "").

Definition truthy_opt (o : option string) : bool :=
  match o with Some s => truthy s | None => false end.

(** [a or b] for [a : Optional[str]] and [b : str]. *)
Definition or_else (a : option string) (b : string) : string :=
  match a with
  | Some s => if truthy s then s else b
  | None => b
  end.

(** [s.encode()]: UTF-8 of the code points below 256. *)
Definition utf8_char (c : ascii) : list Z :=
  let z := code c in
  if (z <? 128)%Z then [z]
  else [Z.lor 192 (Z.shiftr z 6); Z.lor 128 (Z.land z 63)].

Fixpoint encode (s : string) : list Z :=
  match s with
  | EmptyString => []
  | String c s' => utf8_char c ++ encode s'
  end.

End PyStr.

(** ** [base64.b64encode] (RFC 4648, standard alphabet, with padding) *)

Module Base64.

Definition alphabet : string :=
  "ABCDEFGHIJKLMNOPQRSTUVWXYZabcdefghijklmnopqrstuvwxyz0123456789+/".

Definition digit (z : Z) : ascii :=
  match String.get (Z.to_nat (Z.land z 63)) alphabet with
  | Some c => c
  | None => "="%char
  end.

(** The output is ASCII, so the [.decode()] that follows it in the source
    is the identity on it: the result is given as a [str] at once. *)
Fixpoint b64encode (bs : list Z) : string :=
  match bs with
  | [] => ""
  | [a] =>
      String (digit (Z.shiftr a 2))
        (String (digit (Z.shiftl (Z.land a 3) 4)) "==")
  | [a; b] =>
      String (digit (Z.shiftr a 2))
        (String (digit (Z.lor (Z.shiftl (Z.land a 3) 4) (Z.shiftr b 4)))
           (String (digit (Z.shiftl (Z.land b 15) 2)) "="))
  | a :: b :: c :: rest =>
      String (digit (Z.shiftr a 2))
        (String (digit (Z.lor (Z.shiftl (Z.land a 3) 4) (Z.shiftr b 4)))
           (String (digit (Z.lor (Z.shiftl (Z.land b 15) 2) (Z.shiftr c 6)))
              (String (digit (Z.land c 63)) (b64encode rest))))
  end.

End Base64.

(** ** Objects of the OpenTelemetry SDK *)

(** An exporter, as the call that constructs it: the class (the two OTLP
    classes are both named [OTLPSpanExporter], from the [proto.http] and the
    [proto.grpc] package; or the console exporter) and the arguments
    [endpoint=] and [headers=] of the call.  What the object does with its
    arguments is the library's and is not described here: both OTLP classes
    fall back on the [OTEL_EXPORTER_OTLP_*] variables when the endpoint or
    the headers they are given are empty, and the gRPC class keeps only the
    network location of an endpoint that is a URL. *)
Inductive Exporter : Type :=
| HttpOTLPSpanExporter (endpoint : string) (headers : option (gmap string string))
| GrpcOTLPSpanExporter (endpoint : string) (headers : option (gmap string string))
| ConsoleSpanExporter.

Inductive SpanProcessor : Type :=
| BatchSpanProcessor (exporter : Exporter).

(** A resource: its attributes. *)
Record Resource : Type := { attributes : gmap string string }.

Record TracerProvider : Type := {
  resource : Resource;
  span_processors : list SpanProcessor
}.

(** A tracer handle: the name it was asked for, and the provider object it
    emits to ([None]: the API's proxy provider, no SDK provider installed). *)
Record Tracer : Type := {
  instrumenting_module_name : string;
  tracer_provider : option nat
}.

(** ** Exceptions *)

(** An exception is described by what the handlers of the source observe:
    its class name, whether it is an instance of [ImportError], and [str(e)].
    Every value is an instance of [Exception]: the type ranges over errors,
    not over [KeyboardInterrupt] and [SystemExit]. *)
Record Exn : Type := {
  exc_class : string;
  is_ImportError : bool;
  exc_str : string
}.

Inductive Result (A : Type) : Type :=
| Ok (a : A)
| Raise (e : Exn).
Arguments Ok {A} a.
Arguments Raise {A} e.

(** ** Process state *)

Record World : Type := {
  (** [os.environ] *)
  environ : gmap string string;
  (** the provider objects allocated so far, addressed by position *)
  store : list TracerProvider;
  (** [opentelemetry.trace._TRACER_PROVIDER] *)
  _TRACER_PROVIDER : option nat;
  (** lines written by [print] *)
  stdout : list string;
  (** records of the [logging] module (warnings and errors) *)
  log : list string;
  (** what importing [LangChainInstrumentor] raises, if anything *)
  instrumentor_import : option Exn;
  (** what [LangChainInstrumentor().instrument(...)] raises, if anything *)
  instrumentor_instrument : option Exn;
  (** the provider the LangChain instrumentation is bound to: empty before
      the first successful [instrument()], one provider after it *)
  instrumented : list nat;
  (** the attributes the SDK gives a resource by itself: its defaults
      ([telemetry.sdk.*]) and what its detectors find *)
  detected_resource : gmap string string
}.

Definition with_store (st : list TracerProvider) (w : World) : World :=
  {| environ := environ w; store := st;
     _TRACER_PROVIDER := _TRACER_PROVIDER w; stdout := stdout w;
     log := log w; instrumentor_import := instrumentor_import w;
     instrumentor_instrument := instrumentor_instrument w;
     instrumented := instrumented w;
     detected_resource := detected_resource w |}.

Definition with_global (g : option nat) (w : World) : World :=
  {| environ := environ w; store := store w;
     _TRACER_PROVIDER := g; stdout := stdout w;
     log := log w; instrumentor_import := instrumentor_import w;
     instrumentor_instrument := instrumentor_instrument w;
     instrumented := instrumented w;
     detected_resource := detected_resource w |}.

Definition with_stdout (out : list string) (w : World) : World :=
  {| environ := environ w; store := store w;
     _TRACER_PROVIDER := _TRACER_PROVIDER w; stdout := out;
     log := log w; instrumentor_import := instrumentor_import w;
     instrumentor_instrument := instrumentor_instrument w;
     instrumented := instrumented w;
     detected_resource := detected_resource w |}.

Definition with_log (l : list string) (w : World) : World :=
  {| environ := environ w; store := store w;
     _TRACER_PROVIDER := _TRACER_PROVIDER w; stdout := stdout w;
     log := l; instrumentor_import := instrumentor_import w;
     instrumentor_instrument := instrumentor_instrument w;
     instrumented := instrumented w;
     detected_resource := detected_resource w |}.

Definition with_instrumented (l : list nat) (w : World) : World :=
  {| environ := environ w; store := store w;
     _TRACER_PROVIDER := _TRACER_PROVIDER w; stdout := stdout w;
     log := log w; instrumentor_import := instrumentor_import w;
     instrumentor_instrument := instrumentor_instrument w;
     instrumented := l;
     detected_resource := detected_resource w |}.

Definition with_environ (e : gmap string string) (w : World) : World :=
  {| environ := e; store := store w;
     _TRACER_PROVIDER := _TRACER_PROVIDER w; stdout := stdout w;
     log := log w; instrumentor_import := instrumentor_import w;
     instrumentor_instrument := instrumentor_instrument w;
     instrumented := instrumented w;
     detected_resource := detected_resource w |}.

(** ** The monad of Python computations: state and exceptions *)

Definition Py (A : Type) : Type := World -> Result A * World.

Definition ret {A} (a : A) : Py A := fun w => (Ok a, w).

Definition bind {A B} (m : Py A) (k : A -> Py B) : Py B :=
  fun w => match m w with
           | (Ok a, w') => k a w'
           | (Raise e, w') => (Raise e, w')
           end.

Definition raise {A} (e : Exn) : Py A := fun w => (Raise e, w).

(** [try: body  except ... as e: handler e]; the handler sees the state the
    body left behind. *)
Definition try_except {A} (body : Py A) (handler : Exn -> Py A) : Py A :=
  fun w => match body w with
           | (Ok a, w') => (Ok a, w')
           | (Raise e, w') => handler e w'
           end.

Declare Scope py_scope.
Delimit Scope py_scope with py.
Notation "x <- c1 ;; c2" := (bind c1 (fun x => c2))
  (at level 100, c1 at next level, right associativity) : py_scope.
Notation "c1 ;; c2" := (bind c1 (fun _ => c2))
  (at level 100, right associativity) : py_scope.
Local Open Scope py_scope.

(** *** Primitive effects *)

(** [os.getenv(key)] and [os.getenv(key, default)] *)
Definition getenv (key : string) : Py (option string) :=
  fun w => (Ok (environ w !! key), w).

Definition getenv_default (key dflt : string) : Py string :=
  fun w => (Ok (default dflt (environ w !! key)), w).

(** [print(line)] *)
Definition print (line : string) : Py unit :=
  fun w => (Ok tt, with_stdout (stdout w ++ [line]) w).

(** [TracerProvider(resource=resource)]: a new object without processors. *)
Definition new_TracerProvider (r : Resource) : Py nat :=
  fun w => (Ok (length (store w)),
            with_store (store w ++ [{| resource := r; span_processors := [] |}]) w).

(** [provider.add_span_processor(sp)]: the object at [provider] gets one
    more processor, after those it has. *)
Definition with_processor (sp : SpanProcessor) (p : TracerProvider)
  : TracerProvider :=
  {| resource := resource p; span_processors := span_processors p ++ [sp] |}.

Definition add_span_processor (provider : nat) (sp : SpanProcessor) : Py unit :=
  fun w => (Ok tt, with_store (alter (with_processor sp) provider (store w)) w).

(** [trace.set_tracer_provider(provider)].  The OpenTelemetry API sets the
    global provider once: a further attempt leaves it as it is and logs a
    warning. *)
Definition set_tracer_provider (provider : nat) : Py unit :=
  fun w => match _TRACER_PROVIDER w with
           | None => (Ok tt, with_global (Some provider) w)
           | Some _ =>
               (Ok tt,
                with_log
                  (log w ++ ["Overriding of current TracerProvider is not allowed"]) w)
           end.

(** [trace.get_tracer(name)]: a tracer of the current global provider.  An
    SDK provider asked for a tracer with an empty name logs an error and
    gives the tracer all the same. *)
Definition get_tracer (name : string) : Py Tracer :=
  fun w =>
    let tracer := {| instrumenting_module_name := name;
                     tracer_provider := _TRACER_PROVIDER w |} in
    match _TRACER_PROVIDER w with
    | Some _ =>
        if PyStr.truthy name then (Ok tracer, w)
        else (Ok tracer,
              with_log (log w ++ ["get_tracer called with missing module name."]) w)
    | None => (Ok tracer, w)
    end.

(** [from openinference.instrumentation.langchain import LangChainInstrumentor] *)
Definition import_LangChainInstrumentor : Py unit :=
  fun w => match instrumentor_import w with
           | Some e => (Raise e, w)
           | None => (Ok tt, w)
           end.

(** [LangChainInstrumentor().instrument(tracer_provider=provider, skip_dep_check=True)].
    The instrumentor is one object per process: once it is instrumented a
    further [instrument()] does nothing but log a warning, and stays bound
    to the provider of the first. *)
Definition instrument (provider : nat) : Py unit :=
  fun w => match instrumented w with
           | _ :: _ =>
               (Ok tt,
                with_log
                  (log w ++ ["Attempting to instrument while already instrumented"]) w)
           | [] =>
               match instrumentor_instrument w with
               | Some e => (Raise e, w)
               | None => (Ok tt, with_instrumented [provider] w)
               end
           end.

(** [Resource.create(attrs)]: the attributes given explicitly are laid over
    those the SDK provides; an empty or missing [service.name] is replaced
    by [unknown_service], followed by the executable's name when the
    resource has one. *)
Definition unknown_service (attrs : gmap string string) : string :=
  match attrs !! "process.executable.name" with
  | Some exe =>
      if PyStr.truthy exe then "unknown_service:" +:+ exe else "unknown_service"
  | None => "unknown_service"
  end.

Definition created_resource (detected attrs : gmap string string) : Resource :=
  let merged := attrs ∪ detected in
  if PyStr.truthy_opt (merged !! "service.name")
  then {| attributes := merged |}
  else {| attributes := <["service.name" := unknown_service merged]> merged |}.

Definition Resource_create (attrs : gmap string string) : Py Resource :=
  fun w => (Ok (created_resource (detected_resource w) attrs), w).

(** ** The module [tracing_tutorial.tracing.backends] *)

(** Module-level state.  Line 32 runs once, when the module is imported,
    after [load_dotenv()] has merged the [.env] file into [os.environ]: the
    world given to [import_backends] is the one line 32 sees. *)
Record Module : Type := { DEFAULT_SERVICE_NAME : string }.

Definition import_backends : Py Module :=
  name <- getenv_default "OTEL_SERVICE_NAME" "tracing-tutorial" ;;
  ret {| DEFAULT_SERVICE_NAME := name |}.

(** [_ensure_provider], lines 35-44. *)
Definition _ensure_provider (service_name : string) : Py nat :=
  version <- getenv_default "OTEL_SERVICE_VERSION" "0.1.0" ;;
  environment <- getenv_default "OTEL_ENVIRONMENT" "dev" ;;
  resource <-
    Resource_create
      (<["service.name" := service_name]>
         (<["service.version" := version]>
            (<["deployment.environment" := environment]> ∅))) ;;
  provider <- new_TracerProvider resource ;;
  set_tracer_provider provider ;;
  ret provider.

(** [_get_otlp_exporter], lines 47-63.  The two exporter packages imported
    inside the function are declared dependencies and are taken as present. *)
Definition _get_otlp_exporter (endpoint : string)
    (headers : option (gmap string string)) : Exporter :=
  if PyStr.startswith "http://" endpoint || PyStr.startswith "https://" endpoint
  then
    let endpoint :=
      if negb (PyStr.endswith "/v1/traces" endpoint)
      then endpoint +:+ "/v1/traces"
      else endpoint in
    HttpOTLPSpanExporter endpoint headers
  else GrpcOTLPSpanExporter endpoint headers.

(** The last two lines of every OTLP adapter. *)
Definition attach_otlp (provider : nat) (endpoint : string)
    (headers : gmap string string) : Py unit :=
  let exporter := _get_otlp_exporter endpoint (Some headers) in
  add_span_processor provider (BatchSpanProcessor exporter).

(** *** langfuse, lines 66-94 *)

(** Lines 72-80: the endpoint for a host. *)
Definition langfuse_endpoint (host : string) : string :=
  if PyStr.contains "cloud.langfuse.com" host then
    if PyStr.contains "us.cloud" host
    then "https://us.cloud.langfuse.com/api/public/otel"
    else "https://cloud.langfuse.com/api/public/otel"
  else host +:+ "/api/public/otel".

(** Lines 86-91: the headers for the two keys. *)
Definition langfuse_headers (public_key secret_key : option string)
  : gmap string string :=
  match public_key, secret_key with
  | Some pk, Some sk =>
      if PyStr.truthy pk && PyStr.truthy sk then
        let credentials := pk +:+ ":" +:+ sk in
        let encoded := Base64.b64encode (PyStr.encode credentials) in
        <["Authorization" := "Basic " +:+ encoded]> ∅
      else ∅
  | _, _ => ∅
  end.

(** Lines 69-91: what the adapter hands to the transport selector. *)
Definition langfuse_resolve : Py (string * gmap string string) :=
  host <- getenv_default "LANGFUSE_HOST" "http://localhost:3000" ;;
  let endpoint := langfuse_endpoint host in
  public_key <- getenv "LANGFUSE_PUBLIC_KEY" ;;
  secret_key <- getenv "LANGFUSE_SECRET_KEY" ;;
  ret (endpoint, langfuse_headers public_key secret_key).

Definition _setup_langfuse_otlp (provider : nat) : Py unit :=
  r <- langfuse_resolve ;;
  attach_otlp provider r.1 r.2.

(** *** langsmith, lines 97-121 *)

Definition langsmith_endpoint (api_url : string) : string :=
  if PyStr.contains "eu.api" api_url
  then "https://eu.api.smith.langchain.com/otel"
  else if negb (PyStr.endswith "/otel" api_url)
       then api_url +:+ "/otel"
       else api_url.

Definition set_if_truthy (key : string) (value : option string)
    (headers : gmap string string) : gmap string string :=
  match value with
  | Some v => if PyStr.truthy v then <[key := v]> headers else headers
  | None => headers
  end.

Definition langsmith_resolve : Py (string * gmap string string) :=
  api_url <- getenv_default "LANGSMITH_ENDPOINT" "https://api.smith.langchain.com" ;;
  let endpoint := langsmith_endpoint api_url in
  api_key <- getenv "LANGSMITH_API_KEY" ;;
  let headers := set_if_truthy "x-api-key" api_key ∅ in
  project <- getenv "LANGSMITH_PROJECT" ;;
  let headers := set_if_truthy "Langsmith-Project" project headers in
  ret (endpoint, headers).

Definition _setup_langsmith_otlp (provider : nat) : Py unit :=
  r <- langsmith_resolve ;;
  attach_otlp provider r.1 r.2.

(** *** phoenix, lines 124-137 *)

Definition phoenix_resolve : Py (string * gmap string string) :=
  endpoint <- getenv_default "PHOENIX_ENDPOINT" "http://localhost:6006" ;;
  api_key <- getenv "PHOENIX_API_KEY" ;;
  ret (endpoint, set_if_truthy "authorization" api_key ∅).

Definition _setup_phoenix_otlp (provider : nat) : Py unit :=
  r <- phoenix_resolve ;;
  attach_otlp provider r.1 r.2.

(** *** generic OTLP, lines 140-158 *)

(** [key, value = parts]: unpacking into two names. *)
Definition unpack2 (parts : list string) : Py (string * string) :=
  match parts with
  | [a; b] => ret (a, b)
  | [] | [_] =>
      raise {| exc_class := "ValueError"; is_ImportError := false;
               exc_str := "not enough values to unpack" |}
  | _ =>
      raise {| exc_class := "ValueError"; is_ImportError := false;
               exc_str := "too many values to unpack" |}
  end.

(** Lines 152-155: the loop over the comma-separated segments. *)
Fixpoint parse_header_segments (segments : list string)
    (headers : gmap string string) : Py (gmap string string) :=
  match segments with
  | [] => ret headers
  | header :: rest =>
      if PyStr.contains "=" header then
        kv <- unpack2 (PyStr.split "=" (Some 1) header) ;;
        parse_header_segments rest
          (<[PyStr.strip kv.1 := PyStr.strip kv.2]> headers)
      else parse_header_segments rest headers
  end.

(** Lines 148-155: the header parser. *)
Definition parse_headers (headers_str : string) : Py (gmap string string) :=
  if PyStr.truthy headers_str
  then parse_header_segments (PyStr.split "," None headers_str) ∅
  else ret ∅.

(** Lines 143-155. *)
Definition generic_otlp_resolve : Py (string * gmap string string) :=
  traces_endpoint <- getenv "OTEL_EXPORTER_OTLP_TRACES_ENDPOINT" ;;
  endpoint <-
    match traces_endpoint with
    | Some e =>
        if PyStr.truthy e then ret e
        else getenv_default "OTEL_EXPORTER_OTLP_ENDPOINT" "localhost:4317"
    | None => getenv_default "OTEL_EXPORTER_OTLP_ENDPOINT" "localhost:4317"
    end ;;
  headers_str <- getenv_default "OTEL_EXPORTER_OTLP_HEADERS" "" ;;
  headers <- parse_headers headers_str ;;
  ret (endpoint, headers).

Definition _setup_generic_otlp (provider : nat) : Py unit :=
  r <- generic_otlp_resolve ;;
  attach_otlp provider r.1 r.2.

(** *** console, lines 161-163 *)

Definition _setup_console (provider : nat) : Py unit :=
  add_span_processor provider (BatchSpanProcessor ConsoleSpanExporter).

(** *** [configure_tracing], lines 166-209 *)

(** Lines 197-207: the instrumentation attempt and its two handlers. *)
Definition attach_instrumentation (provider : nat) : Py unit :=
  try_except
    (import_LangChainInstrumentor ;; instrument provider)
    (fun e =>
       if is_ImportError e
       then print ("Warning: LangChain instrumentation not available: " +:+ exc_str e)
       else print ("Warning: Failed to instrument LangChain: " +:+ exc_str e)).

Definition configure_tracing (M : Module) (service_name : option string)
  : Py Tracer :=
  raw <- getenv_default "TRACING_BACKEND" "console" ;;
  let backend := PyStr.lower raw in
  let service := PyStr.or_else service_name (DEFAULT_SERVICE_NAME M) in
  provider <- _ensure_provider service ;;
  (if String.eqb backend "langfuse" then _setup_langfuse_otlp provider
   else if String.eqb backend "langsmith" then _setup_langsmith_otlp provider
   else if String.eqb backend "phoenix" then _setup_phoenix_otlp provider
   else if String.eqb backend "console" then _setup_console provider
   else _setup_generic_otlp provider) ;;
  attach_instrumentation provider ;;
  get_tracer service.

(** ** The script [tracing_tutorial.scripts.run_demo] *)

(** Lines 27-29 of [main], after its own [load_dotenv()]: the import of
    [configure_tracing] runs the module [backends] when it has not been
    imported before ([None]); otherwise the module already in [sys.modules]
    is used.  Then [configure_tracing] is called with the value
    [OTEL_SERVICE_NAME] has at that moment. *)
Definition main_configure (imported : option Module) : Py Tracer :=
  M <- match imported with
       | Some M => ret M
       | None => import_backends
       end ;;
  name <- getenv_default "OTEL_SERVICE_NAME" "tracing-tutorial" ;;
  configure_tracing M (Some name).

(** * Vocabulary of the statements *)

(** ** Strings *)

(** Prefix, suffix and substring as equations between strings. *)
Definition has_prefix (p s : string) : Prop := exists t, s = p +:+ t.
Definition has_suffix (p s : string) : Prop := exists t, s = t +:+ p.
Definition has_infix (p s : string) : Prop := exists a b, s = a +:+ p +:+ b.

Fixpoint occurs (c : ascii) (s : string) : bool :=
  match s with
  | EmptyString => false
  | String a s' => Ascii.eqb a c || occurs c s'
  end.

Fixpoint all_space (s : string) : bool :=
  match s with
  | EmptyString => true
  | String c s' => PyStr.isspace c && all_space s'
  end.

(** ** The header policy, in the words of the design *)

(** The text before, and after, the first occurrence of [c]. *)
Fixpoint before_first (c : ascii) (s : string) : string :=
  match s with
  | EmptyString => EmptyString
  | String a s' => if Ascii.eqb a c then EmptyString else String a (before_first c s')
  end.

Fixpoint after_first (c : ascii) (s : string) : string :=
  match s with
  | EmptyString => EmptyString
  | String a s' => if Ascii.eqb a c then s' else after_first c s'
  end.

(** One segment: dropped without [=], else the trimmed text before the first
    [=] as key and the trimmed text after it as value. *)
Definition header_of_segment (segment : string) : option (string * string) :=
  if occurs "=" segment
  then Some (PyStr.strip (before_first "=" segment),
             PyStr.strip (after_first "=" segment))
  else None.

Definition add_segment (headers : gmap string string) (segment : string)
  : gmap string string :=
  match header_of_segment segment with
  | Some (k, v) => <[k := v]> headers
  | None => headers
  end.

(** The whole string: the segments between commas, in order. *)
Definition headers_by_policy (headers_str : string) : gmap string string :=
  foldl add_segment ∅ (PyStr.split "," None headers_str).

(** ** What each adapter resolves and builds, for an environment *)

Definition langfuse_us_endpoint : string :=
  "https://us.cloud.langfuse.com/api/public/otel".

Definition langfuse_cloud_endpoint : string :=
  "https://cloud.langfuse.com/api/public/otel".

(** The endpoint the generic adapter settles on. *)
Definition generic_endpoint (env : gmap string string) : string :=
  match env !! "OTEL_EXPORTER_OTLP_TRACES_ENDPOINT" with
  | Some e =>
      if PyStr.truthy e then e
      else default "localhost:4317" (env !! "OTEL_EXPORTER_OTLP_ENDPOINT")
  | None => default "localhost:4317" (env !! "OTEL_EXPORTER_OTLP_ENDPOINT")
  end.

Definition langfuse_exporter (env : gmap string string) : Exporter :=
  _get_otlp_exporter
    (langfuse_endpoint (default "http://localhost:3000" (env !! "LANGFUSE_HOST")))
    (Some (langfuse_headers (env !! "LANGFUSE_PUBLIC_KEY")
                            (env !! "LANGFUSE_SECRET_KEY"))).

Definition langsmith_exporter (env : gmap string string) : Exporter :=
  _get_otlp_exporter
    (langsmith_endpoint
       (default "https://api.smith.langchain.com" (env !! "LANGSMITH_ENDPOINT")))
    (Some (set_if_truthy "Langsmith-Project" (env !! "LANGSMITH_PROJECT")
             (set_if_truthy "x-api-key" (env !! "LANGSMITH_API_KEY") ∅))).

Definition phoenix_exporter (env : gmap string string) : Exporter :=
  _get_otlp_exporter
    (default "http://localhost:6006" (env !! "PHOENIX_ENDPOINT"))
    (Some (set_if_truthy "authorization" (env !! "PHOENIX_API_KEY") ∅)).

Definition generic_exporter (env : gmap string string) : Exporter :=
  _get_otlp_exporter (generic_endpoint env)
    (Some (headers_by_policy (default "" (env !! "OTEL_EXPORTER_OTLP_HEADERS")))).

Definition exporter_for (backend : string) (env : gmap string string)
  : Exporter :=
  if String.eqb backend "langfuse" then langfuse_exporter env
  else if String.eqb backend "langsmith" then langsmith_exporter env
  else if String.eqb backend "phoenix" then phoenix_exporter env
  else if String.eqb backend "console" then ConsoleSpanExporter
  else generic_exporter env.

(** ** The dispatcher *)

Definition backend_names : list string :=
  ["langfuse"; "langsmith"; "phoenix"; "otlp"; "console"].

(** The backend name a call compares: line 178. *)
Definition backend_of (w : World) : string :=
  PyStr.lower (default "console" (environ w !! "TRACING_BACKEND")).

(** The comparison chain of lines 184-194, as the adapter it selects. *)
Definition adapter_for (backend : string) : nat -> Py unit :=
  if String.eqb backend "langfuse" then _setup_langfuse_otlp
  else if String.eqb backend "langsmith" then _setup_langsmith_otlp
  else if String.eqb backend "phoenix" then _setup_phoenix_otlp
  else if String.eqb backend "console" then _setup_console
  else _setup_generic_otlp.

(** [configure_tracing] with the adapter and the service name fixed. *)
Definition configure_via (adapter : nat -> Py unit) (service : string)
  : Py Tracer :=
  provider <- _ensure_provider service ;;
  adapter provider ;;
  attach_instrumentation provider ;;
  get_tracer service.

(** The attributes [_ensure_provider] gives explicitly, and the resource it
    builds from them. *)
Definition service_attributes (service : string) (env : gmap string string)
  : gmap string string :=
  <["service.name" := service]>
    (<["service.version" := default "0.1.0" (env !! "OTEL_SERVICE_VERSION")]>
       (<["deployment.environment" := default "dev" (env !! "OTEL_ENVIRONMENT")]> ∅)).

Definition service_resource (service : string) (w : World) : Resource :=
  created_resource (detected_resource w) (service_attributes service (environ w)).

(** What the instrumentation attempt raises, and the line printed for it. *)
Definition raised (w : World) : option Exn :=
  match instrumentor_import w with
  | Some e => Some e
  | None =>
      match instrumented w with
      | _ :: _ => None
      | [] => instrumentor_instrument w
      end
  end.

(** Whether [instrument()] is reached while the instrumentor is already
    instrumented. *)
Definition instruments_again (w : World) : bool :=
  match instrumentor_import w, instrumented w with
  | None, _ :: _ => true
  | _, _ => false
  end.

(** The provider the instrumentation is bound to after an attempt for
    [provider] that raised nothing. *)
Definition bound_after (provider : nat) (w : World) : list nat :=
  match instrumented w with
  | [] => [provider]
  | bound => bound
  end.

Definition warning_for (e : Exn) : string :=
  if is_ImportError e
  then "Warning: LangChain instrumentation not available: " +:+ exc_str e
  else "Warning: Failed to instrument LangChain: " +:+ exc_str e.

(** The state [_ensure_provider] leaves behind: one more provider object,
    installed as the global provider if there was none. *)
Definition installed (service : string) (w : World) : World :=
  let fresh := {| resource := service_resource service w;
                  span_processors := [] |} in
  let w1 := with_store (store w ++ [fresh]) w in
  match _TRACER_PROVIDER w with
  | None => with_global (Some (length (store w))) w1
  | Some _ =>
      with_log (log w ++ ["Overriding of current TracerProvider is not allowed"]) w1
  end.

(** The state the instrumentation attempt leaves behind. *)
Definition attempted (provider : nat) (w : World) : World :=
  match raised w with
  | Some e => with_stdout (stdout w ++ [warning_for e]) w
  | None =>
      if instruments_again w
      then with_log
             (log w ++ ["Attempting to instrument while already instrumented"]) w
      else with_instrumented [provider] w
  end.

(** The state a call leaves behind. *)
Definition configured (backend service : string) (w : World) : World :=
  let provider := length (store w) in
  {| environ := environ w;
     store :=
       store w ++
       [{| resource := service_resource service w;
           span_processors :=
             [BatchSpanProcessor (exporter_for backend (environ w))] |}];
     _TRACER_PROVIDER := Some (default provider (_TRACER_PROVIDER w));
     stdout :=
       match raised w with
       | Some e => stdout w ++ [warning_for e]
       | None => stdout w
       end;
     log :=
       (let installing :=
          match _TRACER_PROVIDER w with
          | Some _ =>
              log w ++ ["Overriding of current TracerProvider is not allowed"]
          | None => log w
          end in
        let instrumenting :=
          if instruments_again w
          then installing
               ++ ["Attempting to instrument while already instrumented"]
          else installing in
        if PyStr.truthy service then instrumenting
        else instrumenting ++ ["get_tracer called with missing module name."]);
     instrumentor_import := instrumentor_import w;
     instrumentor_instrument := instrumentor_instrument w;
     instrumented :=
       match raised w with
       | Some _ => instrumented w
       | None => bound_after provider w
       end;
     detected_resource := detected_resource w |}.

(** The same process with another behaviour of the instrumentation package. *)
Definition with_instrumentor (imp ins : option Exn) (w : World) : World :=
  {| environ := environ w; store := store w;
     _TRACER_PROVIDER := _TRACER_PROVIDER w; stdout := stdout w;
     log := log w; instrumentor_import := imp;
     instrumentor_instrument := ins;
     instrumented := instrumented w;
     detected_resource := detected_resource w |}.

(** ** Concrete processes, environments and errors *)

(** The two attributes every version of the SDK gives a resource; the
    version attribute and the detectors' findings are left out of the
    sample processes below. *)
Definition sdk_default_resource : gmap string string :=
  <["telemetry.sdk.language" := "python"]>
    (<["telemetry.sdk.name" := "opentelemetry"]> ∅).

(** A process that has configured nothing yet, with a working
    instrumentation package and the given environment. *)
Definition fresh_world (env : gmap string string) : World :=
  {| environ := env; store := []; _TRACER_PROVIDER := None;
     stdout := []; log := [];
     instrumentor_import := None; instrumentor_instrument := None;
     instrumented := [];
     detected_resource := sdk_default_resource |}.

(** The module as imported with [OTEL_SERVICE_NAME] unset. *)
Definition default_module : Module :=
  {| DEFAULT_SERVICE_NAME := "tracing-tutorial" |}.

Definition env_empty_public_key : gmap string string :=
  <["LANGFUSE_PUBLIC_KEY" := ""]> (<["LANGFUSE_SECRET_KEY" := "sk"]> ∅).

Definition env_odd_cloud_host : gmap string string :=
  <["LANGFUSE_HOST" := "https://cloud.langfuse.com/?from=us.cloud"]> ∅.

Definition env_empty_traces_endpoint : gmap string string :=
  <["OTEL_EXPORTER_OTLP_TRACES_ENDPOINT" := ""]>
    (<["OTEL_EXPORTER_OTLP_ENDPOINT" := "collector:4317"]> ∅).

Definition env_weird_backend : gmap string string :=
  <["TRACING_BACKEND" := "Weird-Value"]> ∅.

Definition env_langfuse_mixed_case : gmap string string :=
  <["TRACING_BACKEND" := "LangFuse"]> ∅.

Definition env_otlp_backend : gmap string string :=
  <["TRACING_BACKEND" := "otlp"]> ∅.

Definition env_at_import : gmap string string :=
  <["OTEL_SERVICE_NAME" := "name-at-import"]> ∅.

Definition env_at_call : gmap string string :=
  <["OTEL_SERVICE_NAME" := "name-at-call"]> ∅.

Definition module_not_found : Exn :=
  {| exc_class := "ModuleNotFoundError"; is_ImportError := true;
     exc_str := "No module named 'openinference'" |}.

Definition activation_error : Exn :=
  {| exc_class := "RuntimeError"; is_ImportError := false;
     exc_str := "boom" |}.

(** The same process with [TRACING_BACKEND] set to [value]. *)
Definition set_backend (value : string) (w : World) : World :=
  with_environ (<["TRACING_BACKEND" := value]> (environ w)) w.

(** The same process with other attributes provided by the SDK. *)
Definition with_detected (detected : gmap string string) (w : World) : World :=
  {| environ := environ w; store := store w;
     _TRACER_PROVIDER := _TRACER_PROVIDER w; stdout := stdout w;
     log := log w; instrumentor_import := instrumentor_import w;
     instrumentor_instrument := instrumentor_instrument w;
     instrumented := instrumented w;
     detected_resource := detected |}.

Definition env_empty_service_name : gmap string string :=
  <["OTEL_SERVICE_NAME" := ""]> ∅.

(** A process whose resource detection reports the executable. *)
Definition world_with_executable : World :=
  with_detected (<["process.executable.name" := "python3"]> sdk_default_resource)
    (fresh_world ∅).

(** Two successive calls in one process: the first with [TRACING_BACKEND]
    set to [otlp], the second after the environment has been emptied. *)
Definition otlp_call : Result Tracer * World :=
  configure_tracing default_module None (fresh_world env_otlp_backend).

Definition default_call_after_otlp : Result Tracer * World :=
  configure_tracing default_module None (with_environ ∅ otlp_call.2).

(** Two successive calls in one process: the first with nothing configured,
    the second after [TRACING_BACKEND] has been set to [otlp]. *)
Definition first_call : Result Tracer * World :=
  configure_tracing default_module None (fresh_world ∅).

Definition second_call : Result Tracer * World :=
  configure_tracing default_module None
    (with_environ env_otlp_backend first_call.2).

(** ** Further vocabulary *)

(** The endpoint an exporter sends to, if it has one. *)
Definition exporter_endpoint (e : Exporter) : option string :=
  match e with
  | HttpOTLPSpanExporter endpoint _ => Some endpoint
  | GrpcOTLPSpanExporter endpoint _ => Some endpoint
  | ConsoleSpanExporter => None
  end.

Fixpoint last_char (s : string) : option ascii :=
  match s with
  | EmptyString => None
  | String c EmptyString => Some c
  | String _ s' => last_char s'
  end.

(** A string that trimming leaves as it is. *)
Definition trimmed (s : string) : Prop := PyStr.strip s = s.

(** What holds of every header the parser keeps. *)
Definition clean_header (k v : string) : Prop :=
  trimmed k /\ trimmed v /\
  occurs "=" k = false /\ occurs "," k = false /\ occurs "," v = false.

Definition langsmith_eu_endpoint : string :=
  "https://eu.api.smith.langchain.com/otel".

(** The variables each adapter reads. *)
Definition langfuse_vars : list string :=
  ["LANGFUSE_HOST"; "LANGFUSE_PUBLIC_KEY"; "LANGFUSE_SECRET_KEY"].

Definition langsmith_vars : list string :=
  ["LANGSMITH_ENDPOINT"; "LANGSMITH_API_KEY"; "LANGSMITH_PROJECT"].

Definition phoenix_vars : list string :=
  ["PHOENIX_ENDPOINT"; "PHOENIX_API_KEY"].

Definition generic_otlp_vars : list string :=
  ["OTEL_EXPORTER_OTLP_TRACES_ENDPOINT"; "OTEL_EXPORTER_OTLP_ENDPOINT";
   "OTEL_EXPORTER_OTLP_HEADERS"].

(** Two environments that give the same value to every listed variable. *)
Definition agree_on (vars : list string) (env1 env2 : gmap string string)
  : Prop :=
  forall k, k ∈ vars -> env1 !! k = env2 !! k.

(** A run of successive calls in one process: before each call the
    environment is replaced by the one given for it. *)
Fixpoint run_calls (M : Module)
    (calls : list (option string * gmap string string)) (w : World) : World :=
  match calls with
  | [] => w
  | (service_name, env) :: rest =>
      run_calls M rest (configure_tracing M service_name (with_environ env w)).2
  end.

Definition one_batch_processor (p : TracerProvider) : Prop :=
  exists e, span_processors p = [BatchSpanProcessor e].

Definition env_langsmith_eu : gmap string string :=
  <["TRACING_BACKEND" := "LangSmith"]>
    (<["LANGSMITH_ENDPOINT" := "https://eu.api.smith.langchain.com"]>
       (<["LANGSMITH_API_KEY" := "key"]> ∅)).

(** * Properties *)

(** ** The primitives on examples *)

Example lower_mixed : PyStr.lower "LangFuse" = "langfuse".
Proof. reflexivity. Qed.

Example split_commas : PyStr.split "," None "a,b,,c" = ["a"; "b"; ""; "c"].
Proof. reflexivity. Qed.

Example split_first_eq : PyStr.split "=" (Some 1) "k=v=w" = ["k"; "v=w"].
Proof. reflexivity. Qed.

Example split_empty : PyStr.split "," None "" = [""].
Proof. reflexivity. Qed.

Example strip_both : PyStr.strip "  a b  " = "a b".
Proof. reflexivity. Qed.

Example b64_pk_sk : Base64.b64encode (PyStr.encode "pk:sk") = "cGs6c2s=".
Proof. reflexivity. Qed.

Example b64_hello : Base64.b64encode (PyStr.encode "hello!") = "aGVsbG8h".
Proof. reflexivity. Qed.

(** The test vectors of RFC 4648, section 10. *)
Example b64_rfc4648 :
  Base64.b64encode (PyStr.encode "") = "" /\
  Base64.b64encode (PyStr.encode "f") = "Zg==" /\
  Base64.b64encode (PyStr.encode "fo") = "Zm8=" /\
  Base64.b64encode (PyStr.encode "foo") = "Zm9v" /\
  Base64.b64encode (PyStr.encode "foob") = "Zm9vYg==" /\
  Base64.b64encode (PyStr.encode "fooba") = "Zm9vYmE=" /\
  Base64.b64encode (PyStr.encode "foobar") = "Zm9vYmFy".
Proof. repeat split; reflexivity. Qed.

(** A character above 127 takes two bytes: U+00E9 is [0xC3 0xA9]. *)
Example encode_latin1 :
  PyStr.encode (String (PyStr.chr 233) "") = [195%Z; 169%Z].
Proof. reflexivity. Qed.

Example lower_latin1 :
  PyStr.lower_char (PyStr.chr 201) = PyStr.chr 233 /\
  PyStr.lower_char (PyStr.chr 215) = PyStr.chr 215 /\
  PyStr.lower_char (PyStr.chr 223) = PyStr.chr 223.
Proof. repeat split; reflexivity. Qed.

Example strip_control_space :
  PyStr.strip (String (PyStr.chr 9) (String (PyStr.chr 160) "k v"
               +:+ String (PyStr.chr 28) (String (PyStr.chr 10) "")))
  = "k v".
Proof. reflexivity. Qed.

(** ** What the string tests decide *)

Lemma append_nil_l (s : string) : "" +:+ s = s.
Proof. reflexivity. Qed.

Lemma append_cons (c : ascii) (a b : string) :
  String c a +:+ b = String c (a +:+ b).
Proof. reflexivity. Qed.

Lemma append_assoc (a b c : string) : (a +:+ b) +:+ c = a +:+ (b +:+ c).
Proof.
  induction a as [|x a IH]; [reflexivity|].
  rewrite !append_cons, IH. reflexivity.
Qed.

Lemma startswith_spec (p s : string) :
  PyStr.startswith p s = true <-> has_prefix p s.
Proof.
  unfold has_prefix. revert s. induction p as [|a p IH]; intros s; simpl.
  - split; [intros _; exists s; reflexivity | reflexivity].
  - destruct s as [|b s].
    + split; [discriminate | intros [t Ht]; discriminate].
    + rewrite andb_true_iff, IH, Ascii.eqb_eq. split.
      * intros [-> [t ->]]. exists t. reflexivity.
      * intros [t Ht]. injection Ht as -> ->. split; [reflexivity | eauto].
Qed.

Lemma endswith_unfold (p s : string) :
  PyStr.endswith p s =
  String.eqb p s ||
  match s with EmptyString => false | String _ s' => PyStr.endswith p s' end.
Proof. destruct s; reflexivity. Qed.

Lemma endswith_spec (p s : string) :
  PyStr.endswith p s = true <-> has_suffix p s.
Proof.
  unfold has_suffix. split.
  - induction s as [|c s IH]; rewrite endswith_unfold, orb_true_iff.
    + intros [H | H]; [|discriminate].
      apply String.eqb_eq in H. subst. exists "". reflexivity.
    + intros [H | H].
      * apply String.eqb_eq in H. subst. exists "". reflexivity.
      * destruct (IH H) as [t ->]. exists (String c t). reflexivity.
  - intros [t ->]. induction t as [|c t IH]; rewrite endswith_unfold.
    + simpl. rewrite String.eqb_refl. reflexivity.
    + simpl. rewrite IH. apply orb_true_r.
Qed.

Lemma contains_unfold (p s : string) :
  PyStr.contains p s =
  PyStr.startswith p s ||
  match s with EmptyString => false | String _ s' => PyStr.contains p s' end.
Proof. destruct s; reflexivity. Qed.

Lemma contains_spec (p s : string) :
  PyStr.contains p s = true <-> has_infix p s.
Proof.
  unfold has_infix. split.
  - induction s as [|c s IH]; rewrite contains_unfold, orb_true_iff.
    + intros [H | H]; [|discriminate].
      apply startswith_spec in H. destruct H as [t Ht]. exists "", t. exact Ht.
    + intros [H | H].
      * apply startswith_spec in H. destruct H as [t Ht]. exists "", t. exact Ht.
      * destruct (IH H) as (a & b & ->). exists (String c a), b. reflexivity.
  - intros (a & b & ->). induction a as [|c a IH]; rewrite contains_unfold.
    + replace (PyStr.startswith p ("" +:+ p +:+ b)) with true; [reflexivity|].
      symmetry. apply startswith_spec. exists b. reflexivity.
    + simpl. rewrite IH. apply orb_true_r.
Qed.

Lemma truthy_spec (s : string) : PyStr.truthy s = true <-> s <> "".
Proof.
  unfold PyStr.truthy. rewrite negb_true_iff, String.eqb_neq. reflexivity.
Qed.

(** ** C3: the transport selector *)

(** C3.  For every endpoint: when it starts with [http://] or [https://] the
    selector builds the HTTP exporter, with the endpoint unchanged if it
    already ends with [/v1/traces] and with [/v1/traces] appended otherwise;
    for every other endpoint it builds the gRPC exporter with the endpoint
    as given.  The headers are handed through in both cases. *)
Theorem transport_selector_by_scheme
    (endpoint : string) (headers : option (gmap string string)) :
  ((has_prefix "http://" endpoint \/ has_prefix "https://" endpoint) ->
     (has_suffix "/v1/traces" endpoint ->
        _get_otlp_exporter endpoint headers
        = HttpOTLPSpanExporter endpoint headers) /\
     (~ has_suffix "/v1/traces" endpoint ->
        _get_otlp_exporter endpoint headers
        = HttpOTLPSpanExporter (endpoint +:+ "/v1/traces") headers)) /\
  (~ (has_prefix "http://" endpoint \/ has_prefix "https://" endpoint) ->
     _get_otlp_exporter endpoint headers
     = GrpcOTLPSpanExporter endpoint headers).
Proof.
  unfold _get_otlp_exporter.
  destruct (PyStr.startswith "http://" endpoint) eqn:Hhttp;
    destruct (PyStr.startswith "https://" endpoint) eqn:Hhttps;
    cbn [orb];
    try (split;
         [ intros _;
           destruct (PyStr.endswith "/v1/traces" endpoint) eqn:Hend; cbn [negb];
           (split;
            [ intros Hs; try reflexivity;
              apply endswith_spec in Hs; congruence
            | intros Hs; try reflexivity;
              exfalso; apply Hs, endswith_spec, Hend ])
         | intros Hn; exfalso; apply Hn;
           first [ left; apply startswith_spec; assumption
                 | right; apply startswith_spec; assumption ] ]).
  split; [|reflexivity].
  intros [H | H]; apply startswith_spec in H; congruence.
Qed.

Example transport_https :
  _get_otlp_exporter "https://collector.example" None
  = HttpOTLPSpanExporter "https://collector.example/v1/traces" None.
Proof. reflexivity. Qed.

Example transport_https_suffixed :
  _get_otlp_exporter "https://collector.example/v1/traces" None
  = HttpOTLPSpanExporter "https://collector.example/v1/traces" None.
Proof. reflexivity. Qed.

Example transport_grpc :
  _get_otlp_exporter "localhost:4317" None
  = GrpcOTLPSpanExporter "localhost:4317" None.
Proof. reflexivity. Qed.

(** ** C4: the header parser *)

(** *** Splitting *)

Lemma split_unfold (sep : ascii) (m : option nat) (c : ascii) (s : string) :
  PyStr.split sep m (String c s) =
  if Ascii.eqb c sep && PyStr.may_split m
  then EmptyString :: PyStr.split sep (PyStr.after_split m) s
  else match PyStr.split sep m s with
       | piece :: rest => String c piece :: rest
       | [] => [String c EmptyString]
       end.
Proof. reflexivity. Qed.

Lemma split_exhausted (sep : ascii) (s : string) :
  PyStr.split sep (Some 0) s = [s].
Proof.
  induction s as [|c s IH]; [reflexivity|].
  rewrite split_unfold, IH. cbn [PyStr.may_split]. rewrite andb_false_r.
  reflexivity.
Qed.

Lemma split_without_sep (sep : ascii) (m : option nat) (s : string) :
  occurs sep s = false -> PyStr.split sep m s = [s].
Proof.
  induction s as [|c s IH]; [reflexivity|].
  cbn [occurs]. intros H. apply orb_false_iff in H as [Hc Hs].
  rewrite split_unfold, Hc, (IH Hs). reflexivity.
Qed.

Lemma split_at_sep (sep : ascii) (m : option nat) (a b : string) :
  occurs sep a = false -> PyStr.may_split m = true ->
  PyStr.split sep m (a +:+ String sep b)
  = a :: PyStr.split sep (PyStr.after_split m) b.
Proof.
  intros Ha Hm. induction a as [|c a IH].
  - rewrite append_nil_l, split_unfold, Ascii.eqb_refl, Hm. reflexivity.
  - cbn [occurs] in Ha. apply orb_false_iff in Ha as [Hc Ha].
    rewrite append_cons, split_unfold, Hc, (IH Ha). reflexivity.
Qed.

(** Splitting on the first separator only gives the text before it and the
    text after it. *)
Lemma split_first (sep : ascii) (s : string) :
  occurs sep s = true ->
  PyStr.split sep (Some 1) s = [before_first sep s; after_first sep s].
Proof.
  induction s as [|c s IH]; [discriminate|].
  cbn [occurs before_first after_first]. rewrite split_unfold.
  destruct (Ascii.eqb c sep) eqn:Hc; cbn [andb orb PyStr.may_split].
  - intros _. cbn [PyStr.after_split Nat.pred]. rewrite split_exhausted.
    reflexivity.
  - intros Hs. rewrite (IH Hs). reflexivity.
Qed.

(** The pieces of a split hold no separator when the count is unlimited, and
    joined by the separator they give the string back. *)
Lemma split_pieces_clean (sep : ascii) (s : string) :
  Forall (fun piece => occurs sep piece = false) (PyStr.split sep None s).
Proof.
  induction s as [|c s IH]; [repeat constructor|].
  rewrite split_unfold. cbn [PyStr.may_split PyStr.after_split].
  rewrite andb_true_r.
  destruct (Ascii.eqb c sep) eqn:Hc.
  - constructor; [reflexivity | exact IH].
  - destruct (PyStr.split sep None s) as [|piece rest].
    + repeat constructor. cbn [occurs]. rewrite Hc. reflexivity.
    + inversion IH; subst. constructor; [|assumption].
      cbn [occurs]. rewrite Hc. assumption.
Qed.

Lemma split_join (sep : ascii) (m : option nat) (s : string) :
  String.concat (String sep EmptyString) (PyStr.split sep m s) = s.
Proof.
  revert m. induction s as [|c s IH]; intros m; [reflexivity|].
  rewrite split_unfold.
  destruct (Ascii.eqb c sep && PyStr.may_split m) eqn:Hc.
  - apply andb_true_iff in Hc as [Hc _]. apply Ascii.eqb_eq in Hc. subst c.
    specialize (IH (PyStr.after_split m)).
    destruct (PyStr.split sep (PyStr.after_split m) s) as [|piece rest] eqn:E.
    + cbn in IH. subst s. cbn in E. discriminate.
    + cbn [String.concat]. cbn [String.concat] in IH. rewrite IH. reflexivity.
  - specialize (IH m).
    destruct (PyStr.split sep m s) as [|piece rest] eqn:E.
    + cbn in IH. subst s. cbn in E. discriminate.
    + cbn [String.concat] in *. destruct rest as [|r rest'].
      * subst. reflexivity.
      * rewrite append_cons, IH. reflexivity.
Qed.

Lemma contains_char (c : ascii) (s : string) :
  PyStr.contains (String c EmptyString) s = occurs c s.
Proof.
  induction s as [|a s IH]; [reflexivity|].
  rewrite contains_unfold, IH. cbn [PyStr.startswith occurs].
  rewrite andb_true_r, (Ascii.eqb_sym c a). reflexivity.
Qed.

(** *** Trimming *)

Lemma rstrip_unfold (c : ascii) (s : string) :
  PyStr.rstrip (String c s) =
  match PyStr.rstrip s with
  | EmptyString => if PyStr.isspace c then EmptyString else String c EmptyString
  | r => String c r
  end.
Proof. reflexivity. Qed.

Lemma lstrip_decompose (s : string) :
  exists l, s = l +:+ PyStr.lstrip s /\ all_space l = true.
Proof.
  induction s as [|c s (l & Hl & Hsp)]; [exists ""; split; reflexivity|].
  cbn [PyStr.lstrip]. destruct (PyStr.isspace c) eqn:Hc.
  - exists (String c l). rewrite append_cons, <- Hl. cbn [all_space].
    rewrite Hc, Hsp. split; reflexivity.
  - exists "". split; reflexivity.
Qed.

Lemma rstrip_decompose (s : string) :
  exists r, s = PyStr.rstrip s +:+ r /\ all_space r = true.
Proof.
  induction s as [|c s (r & Hr & Hsp)]; [exists ""; split; reflexivity|].
  rewrite rstrip_unfold. destruct (PyStr.rstrip s) as [|b t] eqn:E.
  - rewrite append_nil_l in Hr. subst r.
    destruct (PyStr.isspace c) eqn:Hc.
    + exists (String c s). cbn [all_space]. rewrite Hc, Hsp. split; reflexivity.
    + exists s. split; [reflexivity | assumption].
  - exists r. rewrite append_cons, <- Hr. split; [reflexivity | assumption].
Qed.

(** A trimmed string is the input without a run of white space at each end. *)
Lemma strip_decompose (s : string) :
  exists l r, s = l +:+ PyStr.strip s +:+ r
              /\ all_space l = true /\ all_space r = true.
Proof.
  destruct (lstrip_decompose s) as (l & Hl & Hlsp).
  destruct (rstrip_decompose (PyStr.lstrip s)) as (r & Hr & Hrsp).
  exists l, r. unfold PyStr.strip. rewrite <- Hr, <- Hl. auto.
Qed.

Lemma lstrip_head (s : string) (c : ascii) (t : string) :
  PyStr.lstrip s = String c t -> PyStr.isspace c = false.
Proof.
  induction s as [|a s IH]; [discriminate|].
  cbn [PyStr.lstrip]. destruct (PyStr.isspace a) eqn:Ha; [exact IH|].
  intros H. injection H as -> _. exact Ha.
Qed.

Lemma rstrip_keeps_head (c : ascii) (s : string) :
  PyStr.isspace c = false ->
  exists t, PyStr.rstrip (String c s) = String c t.
Proof.
  intros Hc. rewrite rstrip_unfold, Hc.
  destruct (PyStr.rstrip s); eauto.
Qed.

Lemma rstrip_last (s t : string) (c : ascii) :
  PyStr.rstrip s = t +:+ String c EmptyString -> PyStr.isspace c = false.
Proof.
  revert t. induction s as [|a s IH]; intros t.
  - destruct t; discriminate.
  - rewrite rstrip_unfold. destruct (PyStr.rstrip s) as [|b r] eqn:E.
    + destruct (PyStr.isspace a) eqn:Ha.
      * destruct t; discriminate.
      * destruct t as [|x [|y t]]; try discriminate.
        intros H. injection H as ->. exact Ha.
    + destruct t as [|x t]; [discriminate|].
      rewrite append_cons. intros H. injection H as _ H. exact (IH t H).
Qed.

(** The trimmed string neither begins nor ends with white space. *)
Lemma strip_trimmed (s : string) :
  (forall c t, PyStr.strip s = String c t -> PyStr.isspace c = false) /\
  (forall t c, PyStr.strip s = t +:+ String c EmptyString ->
               PyStr.isspace c = false).
Proof.
  unfold PyStr.strip. split.
  - intros c t H. destruct (PyStr.lstrip s) as [|a u] eqn:E; [discriminate|].
    pose proof (lstrip_head _ _ _ E) as Ha.
    destruct (rstrip_keeps_head a u Ha) as [v Hv].
    rewrite Hv in H. injection H as -> _. exact Ha.
  - intros t c. apply rstrip_last.
Qed.

(** *** The parser of the source follows the policy *)

Lemma parse_header_segments_policy (segments : list string)
    (headers : gmap string string) (w : World) :
  parse_header_segments segments headers w
  = (Ok (foldl add_segment headers segments), w).
Proof.
  revert headers. induction segments as [|seg rest IH]; intros headers.
  - reflexivity.
  - cbn [parse_header_segments foldl]. unfold add_segment at 2, header_of_segment.
    rewrite contains_char. destruct (occurs "=" seg) eqn:Hocc.
    + unfold bind. rewrite (split_first _ _ Hocc). cbn [unpack2 ret fst snd].
      apply IH.
    + apply IH.
Qed.

Lemma parse_headers_run (headers_str : string) (w : World) :
  parse_headers headers_str w = (Ok (headers_by_policy headers_str), w).
Proof.
  unfold parse_headers, headers_by_policy.
  destruct (PyStr.truthy headers_str) eqn:Ht.
  - apply parse_header_segments_policy.
  - unfold PyStr.truthy in Ht. apply negb_false_iff, String.eqb_eq in Ht.
    subst. reflexivity.
Qed.

(** C4.  For every header string the parser returns (it never raises, and it
    leaves the process state alone) the map built by the policy: the string
    is cut at every comma; a segment without [=] is dropped; any other
    segment is cut at its first [=] only, and the text before and after it,
    trimmed of white space at both ends, become key and value.  The empty
    string gives the empty map, ["k1=v1,k2=v2"] gives [{k1: v1, k2: v2}] and
    ["bad,k=v"] gives [{k: v}]. *)
Theorem header_parser_follows_policy :
  (forall (headers_str : string) (w : World),
      parse_headers headers_str w = (Ok (headers_by_policy headers_str), w)) /\
  headers_by_policy "" = ∅ /\
  headers_by_policy "k1=v1,k2=v2" = <["k2" := "v2"]> (<["k1" := "v1"]> ∅) /\
  headers_by_policy "bad,k=v" = <["k" := "v"]> ∅ /\
  headers_by_policy "token=a=b= , x y = z "
  = <["x y" := "z"]> (<["token" := "a=b="]> ∅).
Proof.
  split; [exact parse_headers_run | repeat split; reflexivity].
Qed.

(** Every string of the shape [k1=v1,k2=v2] (no comma in the four parts, no
    [=] in the keys) yields the two trimmed pairs; values may hold [=]. *)
Lemma headers_of_two_pairs (k1 v1 k2 v2 : string) :
  occurs "," k1 = false -> occurs "," v1 = false ->
  occurs "," k2 = false -> occurs "," v2 = false ->
  occurs "=" k1 = false -> occurs "=" k2 = false ->
  headers_by_policy (k1 +:+ "=" +:+ v1 +:+ "," +:+ k2 +:+ "=" +:+ v2)
  = <[PyStr.strip k2 := PyStr.strip v2]> (<[PyStr.strip k1 := PyStr.strip v1]> ∅).
Proof.
  intros Hk1 Hv1 Hk2 Hv2 Ek1 Ek2.
  assert (Happ : forall c a b, occurs c (a +:+ b) = occurs c a || occurs c b).
  { intros c a b. induction a as [|x a IH]; [reflexivity|].
    rewrite append_cons. cbn [occurs]. rewrite IH, orb_assoc. reflexivity. }
  assert (Hbefore : forall a b, occurs "=" a = false ->
            before_first "=" (a +:+ String "=" b) = a).
  { intros a b. induction a as [|x a IH]; [reflexivity|].
    cbn [occurs]. intros H. apply orb_false_iff in H as [Hx Ha].
    rewrite append_cons. cbn [before_first]. rewrite Hx, (IH Ha). reflexivity. }
  assert (Hafter : forall a b, occurs "=" a = false ->
            after_first "=" (a +:+ String "=" b) = b).
  { intros a b. induction a as [|x a IH]; [reflexivity|].
    cbn [occurs]. intros H. apply orb_false_iff in H as [Hx Ha].
    rewrite append_cons. cbn [after_first]. rewrite Hx. exact (IH Ha). }
  assert (Hseg : forall k v, occurs "=" k = false ->
            header_of_segment (k +:+ String "=" v)
            = Some (PyStr.strip k, PyStr.strip v)).
  { intros k v Hk. unfold header_of_segment.
    rewrite Happ. cbn [occurs]. rewrite Ascii.eqb_refl, orb_true_r.
    rewrite (Hbefore k v Hk), (Hafter k v Hk). reflexivity. }
  unfold headers_by_policy.
  replace (k1 +:+ "=" +:+ v1 +:+ "," +:+ k2 +:+ "=" +:+ v2)
    with ((k1 +:+ String "=" v1) +:+ String "," (k2 +:+ String "=" v2)).
  2:{ rewrite append_assoc. reflexivity. }
  rewrite split_at_sep;
    [| rewrite Happ, Hk1; cbn [occurs orb]; rewrite Hv1; reflexivity
     | reflexivity].
  rewrite split_without_sep;
    [| rewrite Happ, Hk2; cbn [occurs orb]; rewrite Hv2; reflexivity].
  cbn [foldl]. unfold add_segment.
  rewrite (Hseg k1 v1 Ek1), (Hseg k2 v2 Ek2). reflexivity.
Qed.

(** ** Running the resolvers *)

Lemma infix_widen (a p q r s : string) :
  s = a +:+ (p +:+ q +:+ r) -> has_infix q s.
Proof.
  intros ->. exists (a +:+ p), r. rewrite append_assoc. reflexivity.
Qed.

Lemma infix_of_us_cloud_domain (host : string) :
  has_infix "us.cloud.langfuse.com" host ->
  has_infix "cloud.langfuse.com" host /\ has_infix "us.cloud" host.
Proof.
  intros (a & b & ->). split.
  - apply (infix_widen a "us." "cloud.langfuse.com" b). reflexivity.
  - apply (infix_widen a "" "us.cloud" (".langfuse.com" +:+ b)). reflexivity.
Qed.

Lemma langfuse_resolve_run (w : World) :
  langfuse_resolve w
  = (Ok (langfuse_endpoint
           (default "http://localhost:3000" (environ w !! "LANGFUSE_HOST")),
         langfuse_headers (environ w !! "LANGFUSE_PUBLIC_KEY")
                          (environ w !! "LANGFUSE_SECRET_KEY")), w).
Proof. reflexivity. Qed.

Lemma generic_otlp_resolve_run (w : World) :
  generic_otlp_resolve w
  = (Ok (generic_endpoint (environ w),
         headers_by_policy
           (default "" (environ w !! "OTEL_EXPORTER_OTLP_HEADERS"))), w).
Proof.
  unfold generic_otlp_resolve, generic_endpoint, bind, getenv.
  destruct (environ w !! "OTEL_EXPORTER_OTLP_TRACES_ENDPOINT") as [e|];
    [destruct (PyStr.truthy e)|];
    unfold getenv_default, ret; rewrite parse_headers_run; reflexivity.
Qed.

(** ** C5: the langfuse resolver *)

(** C5, as stated, fails: with both keys set but the public key empty there
    is no [Authorization] header; and a host that holds the cloud domain and,
    elsewhere, the text [us.cloud] gets the US endpoint. *)
Lemma langfuse_set_but_empty_key_has_no_auth :
  (env_empty_public_key !! "LANGFUSE_PUBLIC_KEY" = Some ""
   /\ env_empty_public_key !! "LANGFUSE_SECRET_KEY" = Some "sk"
   /\ (langfuse_resolve (fresh_world env_empty_public_key)).1
      = Ok ("http://localhost:3000/api/public/otel", ∅)) /\
  (PyStr.contains "us.cloud.langfuse.com"
     "https://cloud.langfuse.com/?from=us.cloud" = false
   /\ (langfuse_resolve (fresh_world env_odd_cloud_host)).1
      = Ok (langfuse_us_endpoint, ∅)).
Proof. repeat split; reflexivity. Qed.

(** C5, amended.  For every configuration the langfuse resolver returns
    without raising and without changing the state.  Its endpoint is the
    fixed US-cloud endpoint when the host holds [cloud.langfuse.com] and
    [us.cloud] (so whenever it holds [us.cloud.langfuse.com], whatever
    follows it), the fixed cloud endpoint when it holds [cloud.langfuse.com]
    but not [us.cloud], and otherwise the host (default
    [http://localhost:3000]) followed by [/api/public/otel].  Its headers
    are exactly [Authorization: Basic base64(public:secret)] when both keys
    are set to non-empty strings, and empty otherwise. *)
Theorem langfuse_resolver_amended (w : World) :
  let env := environ w in
  let host := default "http://localhost:3000" (env !! "LANGFUSE_HOST") in
  exists endpoint headers,
    langfuse_resolve w = (Ok (endpoint, headers), w) /\
    (has_infix "us.cloud.langfuse.com" host -> endpoint = langfuse_us_endpoint) /\
    (has_infix "cloud.langfuse.com" host -> has_infix "us.cloud" host ->
       endpoint = langfuse_us_endpoint) /\
    (has_infix "cloud.langfuse.com" host -> ~ has_infix "us.cloud" host ->
       endpoint = langfuse_cloud_endpoint) /\
    (~ has_infix "cloud.langfuse.com" host ->
       endpoint = host +:+ "/api/public/otel") /\
    (forall pk sk,
        env !! "LANGFUSE_PUBLIC_KEY" = Some pk ->
        env !! "LANGFUSE_SECRET_KEY" = Some sk ->
        pk <> "" -> sk <> "" ->
        headers = <["Authorization" :=
                      "Basic " +:+ Base64.b64encode (PyStr.encode (pk +:+ ":" +:+ sk))]> ∅) /\
    (~ (exists pk sk,
           env !! "LANGFUSE_PUBLIC_KEY" = Some pk /\
           env !! "LANGFUSE_SECRET_KEY" = Some sk /\ pk <> "" /\ sk <> "") ->
     headers = ∅).
Proof.
  intros env host. rewrite langfuse_resolve_run. fold env. fold host.
  eexists _, _. split; [reflexivity|].
  assert (Hboth : has_infix "cloud.langfuse.com" host -> has_infix "us.cloud" host ->
                  langfuse_endpoint host = langfuse_us_endpoint).
  { intros H1 H2. unfold langfuse_endpoint.
    apply contains_spec in H1, H2. rewrite H1, H2. reflexivity. }
  split; [intros H; apply infix_of_us_cloud_domain in H as [H1 H2]; auto|].
  split; [exact Hboth|].
  split.
  { intros H1 H2. unfold langfuse_endpoint.
    apply contains_spec in H1. rewrite H1.
    destruct (PyStr.contains "us.cloud" host) eqn:E; [|reflexivity].
    exfalso. apply H2, contains_spec, E. }
  split.
  { intros H1. unfold langfuse_endpoint.
    destruct (PyStr.contains "cloud.langfuse.com" host) eqn:E; [|reflexivity].
    exfalso. apply H1, contains_spec, E. }
  unfold langfuse_headers. split.
  - intros pk sk -> -> Hpk Hsk.
    apply truthy_spec in Hpk, Hsk. rewrite Hpk, Hsk. reflexivity.
  - intros Hnot.
    destruct (env !! "LANGFUSE_PUBLIC_KEY") as [pk|] eqn:Epk; [|reflexivity].
    destruct (env !! "LANGFUSE_SECRET_KEY") as [sk|] eqn:Esk; [|reflexivity].
    destruct (PyStr.truthy pk) eqn:Tpk; [|reflexivity].
    destruct (PyStr.truthy sk) eqn:Tsk; [|reflexivity].
    exfalso. apply Hnot. exists pk, sk.
    repeat split; try reflexivity; apply truthy_spec; assumption.
Qed.

Example langfuse_us_host_with_path :
  (langfuse_resolve
     (fresh_world
        (<["LANGFUSE_HOST" := "https://us.cloud.langfuse.com/some/path"]>
           (<["LANGFUSE_PUBLIC_KEY" := "pk"]>
              (<["LANGFUSE_SECRET_KEY" := "sk"]> ∅))))).1
  = Ok (langfuse_us_endpoint, <["Authorization" := "Basic cGs6c2s="]> ∅).
Proof. reflexivity. Qed.

Example langfuse_local_default :
  (langfuse_resolve (fresh_world ∅)).1
  = Ok ("http://localhost:3000/api/public/otel", ∅).
Proof. reflexivity. Qed.

(** ** C6 and C10: the generic OTLP resolver *)

(** C6, as stated, fails: the traces-specific variable is set (to the empty
    string), yet the endpoint is not its value but that of the generic
    variable. *)
Lemma generic_otlp_set_but_empty_traces_endpoint :
  env_empty_traces_endpoint !! "OTEL_EXPORTER_OTLP_TRACES_ENDPOINT" = Some ""
  /\ (generic_otlp_resolve (fresh_world env_empty_traces_endpoint)).1
     = Ok ("collector:4317", ∅).
Proof. split; reflexivity. Qed.

(** C6, amended.  For every configuration the generic resolver returns
    without raising and without changing the state.  Its endpoint is
    [OTEL_EXPORTER_OTLP_TRACES_ENDPOINT] when that variable is set to a
    non-empty string, else [OTEL_EXPORTER_OTLP_ENDPOINT] when that is set,
    else [localhost:4317].  Its headers are what the header parser returns
    for [OTEL_EXPORTER_OTLP_HEADERS] (for the empty string when unset). *)
Theorem generic_otlp_resolver_amended (w : World) :
  let env := environ w in
  exists endpoint headers,
    generic_otlp_resolve w = (Ok (endpoint, headers), w) /\
    (forall t, env !! "OTEL_EXPORTER_OTLP_TRACES_ENDPOINT" = Some t -> t <> "" ->
       endpoint = t) /\
    (forall e,
       (env !! "OTEL_EXPORTER_OTLP_TRACES_ENDPOINT" = None \/
        env !! "OTEL_EXPORTER_OTLP_TRACES_ENDPOINT" = Some "") ->
       env !! "OTEL_EXPORTER_OTLP_ENDPOINT" = Some e -> endpoint = e) /\
    ((env !! "OTEL_EXPORTER_OTLP_TRACES_ENDPOINT" = None \/
      env !! "OTEL_EXPORTER_OTLP_TRACES_ENDPOINT" = Some "") ->
     env !! "OTEL_EXPORTER_OTLP_ENDPOINT" = None -> endpoint = "localhost:4317") /\
    parse_headers (default "" (env !! "OTEL_EXPORTER_OTLP_HEADERS")) w
    = (Ok headers, w).
Proof.
  intros env. rewrite generic_otlp_resolve_run. fold env.
  eexists _, _. split; [reflexivity|].
  unfold generic_endpoint.
  split; [|split; [|split]].
  - intros t -> Ht. apply truthy_spec in Ht. rewrite Ht. reflexivity.
  - intros e [-> | ->] ->; reflexivity.
  - intros [-> | ->] ->; reflexivity.
  - apply parse_headers_run.
Qed.

Example generic_otlp_all_unset :
  (generic_otlp_resolve (fresh_world ∅)).1 = Ok ("localhost:4317", ∅).
Proof. reflexivity. Qed.

(** C10.  For every configuration in which
    [OTEL_EXPORTER_OTLP_TRACES_ENDPOINT] is set to the empty string, the
    generic resolver behaves as if the variable were unset: its endpoint is
    [OTEL_EXPORTER_OTLP_ENDPOINT] when that is set and [localhost:4317]
    otherwise, and its result is the one it gives once the variable is
    removed from the environment. *)
Theorem generic_otlp_empty_traces_endpoint_is_unset (w : World) :
  environ w !! "OTEL_EXPORTER_OTLP_TRACES_ENDPOINT" = Some "" ->
  let unset :=
    with_environ (delete "OTEL_EXPORTER_OTLP_TRACES_ENDPOINT" (environ w)) w in
  exists headers,
    generic_otlp_resolve w
    = (Ok (default "localhost:4317" (environ w !! "OTEL_EXPORTER_OTLP_ENDPOINT"),
           headers), w) /\
    (generic_otlp_resolve unset).1 = (generic_otlp_resolve w).1.
Proof.
  intros Hset unset. rewrite !generic_otlp_resolve_run.
  unfold generic_endpoint, unset. cbn [environ with_environ fst].
  rewrite Hset, lookup_delete_eq, !lookup_delete_ne by discriminate.
  cbn [PyStr.truthy String.eqb negb]. eauto.
Qed.

Lemma generic_otlp_empty_traces_endpoint_is_unset_witness :
  exists headers,
    generic_otlp_resolve (fresh_world env_empty_traces_endpoint)
    = (Ok ("collector:4317", headers), fresh_world env_empty_traces_endpoint).
Proof.
  destruct (generic_otlp_empty_traces_endpoint_is_unset
              (fresh_world env_empty_traces_endpoint) eq_refl)
    as (headers & Hrun & _).
  exists headers. exact Hrun.
Defined.

(** ** Running the dispatcher *)

(** One step of a computation whose result is known. *)
Lemma bind_ok {A B} (m : Py A) (k : A -> Py B) (w w' : World) (a : A) :
  m w = (Ok a, w') -> bind m k w = k a w'.
Proof. intros H. unfold bind. rewrite H. reflexivity. Qed.

Ltac case_backend :=
  repeat match goal with
         | |- context [String.eqb ?a ?b] => destruct (String.eqb a b)
         end.

Lemma alter_at_end {A} (f : A -> A) (l : list A) (x : A) :
  alter f (length l) (l ++ [x]) = l ++ [f x].
Proof. induction l as [|a l IH]; [reflexivity|]. cbn. f_equal. exact IH. Qed.

Lemma ensure_provider_run (service : string) (w : World) :
  _ensure_provider service w = (Ok (length (store w)), installed service w).
Proof.
  unfold _ensure_provider, installed, bind, getenv_default, Resource_create,
    new_TracerProvider, set_tracer_provider, ret.
  cbn [_TRACER_PROVIDER with_store environ store log].
  destruct (_TRACER_PROVIDER w); reflexivity.
Qed.

(** Every adapter adds one batching processor to the provider it is given
    and touches nothing else; none raises. *)
Lemma adapter_for_run (backend : string) (provider : nat) (w : World) :
  adapter_for backend provider w
  = (Ok tt,
     with_store
       (alter (with_processor (BatchSpanProcessor (exporter_for backend (environ w))))
          provider (store w)) w).
Proof.
  unfold adapter_for, exporter_for. case_backend; try reflexivity.
  unfold _setup_generic_otlp.
  rewrite (bind_ok _ _ _ _ _ (generic_otlp_resolve_run w)). reflexivity.
Qed.

(** The instrumentation attempt never raises: an error of the import or of
    the activation becomes one printed line. *)
Lemma attach_instrumentation_run (provider : nat) (w : World) :
  attach_instrumentation provider w = (Ok tt, attempted provider w).
Proof.
  unfold attach_instrumentation, attempted, raised, instruments_again,
    try_except, bind, import_LangChainInstrumentor, instrument, print,
    warning_for.
  destruct (instrumentor_import w) as [e|].
  - destruct (is_ImportError e); reflexivity.
  - destruct (instrumented w) as [|bound rest]; [|reflexivity].
    destruct (instrumentor_instrument w) as [e|]; [|reflexivity].
    destruct (is_ImportError e); reflexivity.
Qed.

Lemma configure_via_run (backend service : string) (w : World) :
  configure_via (adapter_for backend) service w
  = (Ok {| instrumenting_module_name := service;
           tracer_provider :=
             Some (default (length (store w)) (_TRACER_PROVIDER w)) |},
     configured backend service w).
Proof.
  unfold configure_via.
  rewrite (bind_ok _ _ _ _ _ (ensure_provider_run service w)).
  rewrite (bind_ok _ _ _ _ _ (adapter_for_run backend _ _)).
  rewrite (bind_ok _ _ _ _ _ (attach_instrumentation_run _ _)).
  unfold get_tracer, attempted, installed, configured, raised,
    instruments_again, bound_after, service_resource.
  destruct w as [env st g out lg imp ins insd det].
  cbn [environ store _TRACER_PROVIDER stdout log instrumentor_import
       instrumentor_instrument instrumented detected_resource
       with_store with_global with_log].
  destruct g as [g|];
    cbn [environ store _TRACER_PROVIDER stdout log instrumentor_import
         instrumentor_instrument instrumented detected_resource
         with_store with_global with_log];
    rewrite alter_at_end;
    (destruct imp as [e|]; [|destruct insd as [|bound rest];
                             [destruct ins as [e|]|]]);
    destruct (PyStr.truthy service); reflexivity.
Qed.

Lemma configured_store_lookup (backend service : string) (w : World) :
  store (configured backend service w) !! length (store w)
  = Some {| resource := service_resource service w;
            span_processors :=
              [BatchSpanProcessor (exporter_for backend (environ w))] |}.
Proof. cbn [configured store]. apply list_lookup_middle. reflexivity. Qed.

Lemma configured_keeps_older (backend service : string) (w : World) (i : nat) :
  i < length (store w) ->
  store (configured backend service w) !! i = store w !! i.
Proof. intros Hi. cbn [configured store]. apply lookup_app_l. exact Hi. Qed.

(** *** The resource a provider is built with *)

Lemma unknown_service_prefix (attrs : gmap string string) :
  has_prefix "unknown_service" (unknown_service attrs).
Proof.
  unfold unknown_service.
  destruct (attrs !! "process.executable.name") as [exe|];
    [destruct (PyStr.truthy exe)|]; eexists; reflexivity.
Qed.

Lemma created_resource_service_name (detected attrs : gmap string string)
    (name : string) :
  attrs !! "service.name" = Some name ->
  attributes (created_resource detected attrs) !! "service.name"
  = Some (if PyStr.truthy name then name
          else unknown_service (attrs ∪ detected)).
Proof.
  intros Hname. unfold created_resource.
  rewrite (lookup_union_Some_l _ detected _ _ Hname).
  cbn [PyStr.truthy_opt]. destruct (PyStr.truthy name); cbn [attributes].
  - apply lookup_union_Some_l, Hname.
  - apply lookup_insert_eq.
Qed.

Lemma created_resource_other (detected attrs : gmap string string) (k : string) :
  k <> "service.name" ->
  attributes (created_resource detected attrs) !! k = (attrs ∪ detected) !! k.
Proof.
  intros Hk. unfold created_resource.
  destruct (PyStr.truthy_opt _); cbn [attributes]; [reflexivity|].
  apply lookup_insert_ne. congruence.
Qed.

(** The service name of the resource [_ensure_provider] builds: the name
    it is given, unless that is empty. *)
Lemma service_resource_name (name : string) (w : World) :
  attributes (service_resource name w) !! "service.name"
  = Some (if PyStr.truthy name then name
          else unknown_service
                 (service_attributes name (environ w) ∪ detected_resource w)).
Proof.
  unfold service_resource. apply created_resource_service_name.
  apply lookup_insert_eq.
Qed.

Section Dispatcher.

(** The imported module and the argument of the call. *)
Variable M : Module.
Variable service_name : option string.

Let service : string := PyStr.or_else service_name (DEFAULT_SERVICE_NAME M).

Lemma configure_tracing_dispatch (w : World) :
  configure_tracing M service_name w
  = configure_via (adapter_for (backend_of w)) service w.
Proof.
  unfold configure_tracing, configure_via, adapter_for, backend_of, service.
  unfold bind at 1. unfold getenv_default at 1.
  case_backend; reflexivity.
Qed.

Lemma configure_tracing_run (w : World) :
  configure_tracing M service_name w
  = (Ok {| instrumenting_module_name := service;
           tracer_provider :=
             Some (default (length (store w)) (_TRACER_PROVIDER w)) |},
     configured (backend_of w) service w).
Proof. rewrite configure_tracing_dispatch. apply configure_via_run. Qed.

(** ** C1: no configuration at all *)

(** What holds of every call in an environment where [TRACING_BACKEND] is
    unset, whatever the argument and whatever the instrumentation step does:
    the call returns a tracer and does not raise; the backend selection is
    [console]; the call is the one that runs the console adapter; the
    provider object the call builds ends with exactly one processor, a
    batching processor around the console exporter; and the tracer is one of
    the global provider.  Only when no provider had been installed before
    the call is the tracer's provider that object. *)
Lemma default_backend_is_console (w : World) :
  environ w !! "TRACING_BACKEND" = None ->
  exists tracer w',
    configure_tracing M service_name w = (Ok tracer, w') /\
    backend_of w = "console" /\
    configure_tracing M service_name w = configure_via _setup_console service w /\
    (exists obj,
        store w' !! length (store w) = Some obj /\
        span_processors obj = [BatchSpanProcessor ConsoleSpanExporter]) /\
    tracer_provider tracer = _TRACER_PROVIDER w' /\
    (_TRACER_PROVIDER w = None ->
     exists provider obj,
       tracer_provider tracer = Some provider /\
       store w' !! provider = Some obj /\
       span_processors obj = [BatchSpanProcessor ConsoleSpanExporter]).
Proof.
  intros Hunset.
  assert (Hb : backend_of w = "console").
  { unfold backend_of. rewrite Hunset. reflexivity. }
  eexists _, _. split; [apply configure_tracing_run|].
  split; [exact Hb|].
  split; [rewrite configure_tracing_dispatch, Hb; reflexivity|].
  rewrite Hb. split; [|split].
  - eexists. split; [apply configured_store_lookup | reflexivity].
  - reflexivity.
  - intros Hfirst. eexists _, _. split; [|split].
    + cbn [tracer_provider]. rewrite Hfirst. reflexivity.
    + apply configured_store_lookup.
    + reflexivity.
Qed.

(** ** C2: unrecognized backend names *)

(** The variable [TRACING_BACKEND] is read by the dispatcher only: neither
    the resource nor any exporter depends on it. *)
Lemma set_backend_keeps_resource (u name : string) (w : World) :
  service_resource name (set_backend u w) = service_resource name w.
Proof.
  unfold service_resource, service_attributes, set_backend.
  cbn [environ with_environ detected_resource].
  rewrite !lookup_insert_ne by discriminate. reflexivity.
Qed.

Lemma set_backend_keeps_exporter (u backend : string) (env : gmap string string) :
  exporter_for backend (<["TRACING_BACKEND" := u]> env) = exporter_for backend env.
Proof.
  unfold exporter_for, langfuse_exporter, langsmith_exporter, phoenix_exporter,
    generic_exporter, generic_endpoint.
  rewrite !lookup_insert_ne by discriminate. reflexivity.
Qed.

(** C2.  For every value [v] of [TRACING_BACKEND]: the call depends on [v]
    only through its lower-cased form, since with any value [u] that has
    the same lower-cased form in its place it returns the same tracer and
    leaves the same provider objects and the same global provider (so the
    matching of backend names is case-insensitive); and when the lower-cased
    form is none of the five backend names, the adapter that runs is the
    generic OTLP one, and the call returns a tracer without raising,
    leaving on the provider it built the exporter of the generic adapter. *)
Theorem backend_matching_ignores_case_and_falls_back (w : World) (v : string) :
  environ w !! "TRACING_BACKEND" = Some v ->
  (forall u, PyStr.lower u = PyStr.lower v ->
     (configure_tracing M service_name (set_backend u w)).1
     = (configure_tracing M service_name w).1 /\
     store (configure_tracing M service_name (set_backend u w)).2
     = store (configure_tracing M service_name w).2 /\
     _TRACER_PROVIDER (configure_tracing M service_name (set_backend u w)).2
     = _TRACER_PROVIDER (configure_tracing M service_name w).2) /\
  (PyStr.lower v ∉ backend_names ->
   exists tracer w',
     configure_tracing M service_name w = (Ok tracer, w') /\
     backend_of w = PyStr.lower v /\
     adapter_for (backend_of w) = _setup_generic_otlp /\
     configure_tracing M service_name w
     = configure_via _setup_generic_otlp service w /\
     (exists obj,
         store w' !! length (store w) = Some obj /\
         span_processors obj
         = [BatchSpanProcessor (generic_exporter (environ w))])).
Proof.
  intros Hv.
  assert (Hb : backend_of w = PyStr.lower v).
  { unfold backend_of. rewrite Hv. reflexivity. }
  split.
  - intros u Hu.
    assert (Hbu : backend_of (set_backend u w) = PyStr.lower v).
    { unfold backend_of, set_backend. cbn [environ with_environ].
      rewrite lookup_insert_eq. exact Hu. }
    rewrite !configure_tracing_run, Hb, Hbu.
    cbn [fst snd configured store _TRACER_PROVIDER].
    rewrite set_backend_keeps_resource.
    change (environ (set_backend u w))
      with (<["TRACING_BACKEND" := u]> (environ w)).
    rewrite set_backend_keeps_exporter.
    repeat split; reflexivity.
  - intros Hnot.
    unfold backend_names in Hnot. rewrite !not_elem_of_cons in Hnot.
    destruct Hnot as (H1 & H2 & H3 & _ & H5 & _).
    apply String.eqb_neq in H1, H2, H3, H5.
    assert (Ha : adapter_for (backend_of w) = _setup_generic_otlp).
    { unfold adapter_for. rewrite Hb, H1, H2, H3, H5. reflexivity. }
    assert (He : exporter_for (backend_of w) (environ w)
                 = generic_exporter (environ w)).
    { unfold exporter_for. rewrite Hb, H1, H2, H3, H5. reflexivity. }
    eexists _, _. split; [apply configure_tracing_run|].
    split; [exact Hb|]. split; [exact Ha|]. split.
    + rewrite configure_tracing_dispatch, Ha. reflexivity.
    + eexists. split; [apply configured_store_lookup|].
      cbn [span_processors]. rewrite He. reflexivity.
Qed.

(** ** C7: the instrumentation step cannot fail the call *)

Lemma warning_is_a_warning (e : Exn) : has_prefix "Warning: " (warning_for e).
Proof.
  unfold warning_for. destruct (is_ImportError e); eexists; reflexivity.
Qed.

(** C7.  For every outcome of the instrumentation step (the import raises,
    or the activation raises, any error; or neither does): the call returns
    a tracer and does not raise.  The tracer, the provider objects with
    their resources and exporters, and the global provider are the ones of
    the same call with a working instrumentation.  When the step raised [e],
    exactly one line is printed, the warning for [e] (the "not available"
    one for an [ImportError], the "failed" one for any other error), and
    the instrumentation stays bound as it was; when it raised nothing,
    nothing is printed, and the instrumentation is bound to the provider the
    call built unless it was bound already. *)
Theorem instrumentation_failure_is_not_fatal (w : World) :
  exists tracer w' w_ok,
    configure_tracing M service_name w = (Ok tracer, w') /\
    configure_tracing M service_name (with_instrumentor None None w)
    = (Ok tracer, w_ok) /\
    store w' = store w_ok /\
    _TRACER_PROVIDER w' = _TRACER_PROVIDER w_ok /\
    (forall e, raised w = Some e ->
       stdout w' = stdout w ++ [warning_for e] /\
       has_prefix "Warning: " (warning_for e) /\
       (is_ImportError e = true ->
        warning_for e
        = "Warning: LangChain instrumentation not available: " +:+ exc_str e) /\
       (is_ImportError e = false ->
        warning_for e = "Warning: Failed to instrument LangChain: " +:+ exc_str e) /\
       instrumented w' = instrumented w) /\
    (raised w = None ->
       stdout w' = stdout w /\
       instrumented w' = bound_after (length (store w)) w).
Proof.
  exists {| instrumenting_module_name := service;
            tracer_provider :=
              Some (default (length (store w)) (_TRACER_PROVIDER w)) |},
    (configured (backend_of w) service w),
    (configured (backend_of w) service (with_instrumentor None None w)).
  split; [apply configure_tracing_run|].
  split; [rewrite configure_tracing_run; reflexivity|].
  split; [reflexivity|]. split; [reflexivity|].
  cbn [configured stdout instrumented]. split.
  - intros e He. rewrite He. unfold warning_for.
    repeat split; try apply warning_is_a_warning.
    + intros ->. reflexivity.
    + intros ->. reflexivity.
  - intros Hnone. rewrite Hnone. split; reflexivity.
Qed.

(** ** C8: calling twice *)

(** Once a provider is installed, a further call builds and configures a
    new provider object but the global provider, and with it the tracer the
    call returns, stay the ones installed first; the older objects are left
    as they were. *)
Lemma global_provider_is_set_once (w : World) (g : nat) :
  _TRACER_PROVIDER w = Some g ->
  exists tracer w',
    configure_tracing M service_name w = (Ok tracer, w') /\
    length (store w') = S (length (store w)) /\
    _TRACER_PROVIDER w' = Some g /\
    tracer_provider tracer = Some g /\
    (g < length (store w) -> store w' !! g = store w !! g) /\
    exists more,
      log w'
      = log w ++ "Overriding of current TracerProvider is not allowed" :: more.
Proof.
  intros Hg. eexists _, _. split; [apply configure_tracing_run|].
  cbn [configured store _TRACER_PROVIDER tracer_provider log].
  rewrite Hg. cbn [default from_option id].
  rewrite length_app. cbn [length].
  split; [lia|]. split; [reflexivity|]. split; [reflexivity|].
  split; [intros Hlt; apply lookup_app_l; exact Hlt|].
  destruct (instruments_again w), (PyStr.truthy service);
    rewrite <- ?app_assoc; eexists; reflexivity.
Qed.

End Dispatcher.

Lemma backend_matching_ignores_case_and_falls_back_witness :
  (store (configure_tracing default_module None
            (set_backend "langfuse" (fresh_world env_langfuse_mixed_case))).2
   = store (configure_tracing default_module None
              (fresh_world env_langfuse_mixed_case)).2) /\
  (exists tracer w',
      configure_tracing default_module None (fresh_world env_weird_backend)
      = (Ok tracer, w') /\
      span_processors <$> store w'
      = [[BatchSpanProcessor (GrpcOTLPSpanExporter "localhost:4317" (Some ∅))]]).
Proof.
  split.
  - assert (Hset : environ (fresh_world env_langfuse_mixed_case)
                   !! "TRACING_BACKEND" = Some "LangFuse") by reflexivity.
    destruct (backend_matching_ignores_case_and_falls_back
                default_module None (fresh_world env_langfuse_mixed_case)
                "LangFuse" Hset)
      as (Hcase & _).
    destruct (Hcase "langfuse" eq_refl) as (_ & Hstore & _). exact Hstore.
  - assert (Hnot : PyStr.lower "Weird-Value" ∉ backend_names).
    { unfold backend_names. rewrite !not_elem_of_cons.
      repeat split; try discriminate. apply not_elem_of_nil. }
    assert (Hset : environ (fresh_world env_weird_backend) !! "TRACING_BACKEND"
                   = Some "Weird-Value") by reflexivity.
    destruct (backend_matching_ignores_case_and_falls_back
                default_module None (fresh_world env_weird_backend)
                "Weird-Value" Hset)
      as (_ & Hfall).
    destruct (Hfall Hnot) as (tracer & w' & Hrun & _).
    exists tracer, w'. split; [exact Hrun|].
    vm_compute in Hrun. injection Hrun as <- <-. reflexivity.
Defined.

(** The comparison is made on the lower-cased value: a known name is
    recognized in any mix of cases, and [otlp] itself selects the generic
    adapter. *)
Example backend_names_in_any_case :
  adapter_for (PyStr.lower "LangFuse") = _setup_langfuse_otlp /\
  adapter_for (PyStr.lower "LANGSMITH") = _setup_langsmith_otlp /\
  adapter_for (PyStr.lower "Phoenix") = _setup_phoenix_otlp /\
  adapter_for (PyStr.lower "CONSOLE") = _setup_console /\
  adapter_for (PyStr.lower "OTLP") = _setup_generic_otlp.
Proof. repeat split; reflexivity. Qed.

Example missing_dependency_run :
  let r := configure_tracing default_module None
             (with_instrumentor (Some module_not_found) None (fresh_world ∅)) in
  r.1 = Ok {| instrumenting_module_name := "tracing-tutorial";
              tracer_provider := Some 0 |} /\
  stdout r.2
  = ["Warning: LangChain instrumentation not available: No module named 'openinference'"] /\
  span_processors <$> store r.2 = [[BatchSpanProcessor ConsoleSpanExporter]].
Proof. repeat split; reflexivity. Qed.

Example failing_activation_run :
  let r := configure_tracing default_module None
             (with_instrumentor None (Some activation_error) (fresh_world ∅)) in
  r.1 = Ok {| instrumenting_module_name := "tracing-tutorial";
              tracer_provider := Some 0 |} /\
  stdout r.2 = ["Warning: Failed to instrument LangChain: boom"] /\
  span_processors <$> store r.2 = [[BatchSpanProcessor ConsoleSpanExporter]].
Proof. repeat split; reflexivity. Qed.

(** C1, at a call where it fails: a first call with [TRACING_BACKEND] set to
    [otlp], then the environment emptied and a second call.  The second
    call is made with no configuration variable set and returns without
    raising, but the tracer it returns is one of the provider installed by
    the first call, whose only processor is the one around the gRPC OTLP
    exporter; the console processor sits on the second provider object,
    which no tracer uses. *)
Theorem default_call_after_otlp_call_is_not_console :
  environ (with_environ ∅ otlp_call.2) = ∅ /\
  default_call_after_otlp.1
  = Ok {| instrumenting_module_name := "tracing-tutorial";
          tracer_provider := Some 0 |} /\
  _TRACER_PROVIDER default_call_after_otlp.2 = Some 0 /\
  span_processors <$> store default_call_after_otlp.2
  = [[BatchSpanProcessor (GrpcOTLPSpanExporter "localhost:4317" (Some ∅))];
     [BatchSpanProcessor ConsoleSpanExporter]].
Proof. repeat split; reflexivity. Qed.

(** C8, at two successive calls: the first in a fresh process with nothing
    configured, the second after [TRACING_BACKEND] has been set to [otlp].
    The second call builds a second provider object and gives it the gRPC
    exporter, but the global provider is still the first object, the tracer
    it returns is one of the first object, whose only processor is the
    console one, and the instrumentation stays bound to the first object;
    the API logs that overriding is not allowed, and the instrumentor that
    it is instrumented already. *)
Theorem second_call_keeps_first_provider :
  first_call.1 = Ok {| instrumenting_module_name := "tracing-tutorial";
                       tracer_provider := Some 0 |} /\
  _TRACER_PROVIDER first_call.2 = Some 0 /\
  second_call.1 = Ok {| instrumenting_module_name := "tracing-tutorial";
                        tracer_provider := Some 0 |} /\
  _TRACER_PROVIDER second_call.2 = Some 0 /\
  span_processors <$> store second_call.2
  = [[BatchSpanProcessor ConsoleSpanExporter];
     [BatchSpanProcessor (GrpcOTLPSpanExporter "localhost:4317" (Some ∅))]] /\
  instrumented second_call.2 = [0] /\
  log second_call.2
  = ["Overriding of current TracerProvider is not allowed";
     "Attempting to instrument while already instrumented"].
Proof. repeat split; reflexivity. Qed.

(** ** C9: the default service name *)

(** C9, as stated, fails when [OTEL_SERVICE_NAME] was set to the empty
    string at import: the module's default is then the empty string, the
    tracer is named with it, but the resource's service name is not that
    value: the SDK puts its [unknown_service] default in its place. *)
Lemma empty_import_time_name_is_not_the_resource_name :
  (import_backends (fresh_world env_empty_service_name)).1
  = Ok {| DEFAULT_SERVICE_NAME := "" |} /\
  (configure_tracing {| DEFAULT_SERVICE_NAME := "" |} None world_with_executable).1
  = Ok {| instrumenting_module_name := ""; tracer_provider := Some 0 |} /\
  (fun p => attributes (resource p) !! "service.name")
    <$> store (configure_tracing {| DEFAULT_SERVICE_NAME := "" |} None
                 world_with_executable).2
  = [Some "unknown_service:python3"].
Proof. repeat split; reflexivity. Qed.

(** C9, amended.  For every call with the argument [None] or the empty
    string, the name of the tracer the call returns is the value
    [OTEL_SERVICE_NAME] had when the module was imported ([tracing-tutorial]
    if it was unset then), whatever the environment holds when the call is
    made; and so is the service name of the resource of the provider the
    call builds, unless that value is the empty string: then the resource's
    service name is the SDK's [unknown_service] default (followed by the
    executable's name when the resource has one). *)
Theorem default_service_name_is_fixed_at_import
    (w_import w : World) (service_name : option string) :
  service_name = None \/ service_name = Some "" ->
  let at_import :=
    default "tracing-tutorial" (environ w_import !! "OTEL_SERVICE_NAME") in
  exists M tracer w',
    import_backends w_import = (Ok M, w_import) /\
    DEFAULT_SERVICE_NAME M = at_import /\
    configure_tracing M service_name w = (Ok tracer, w') /\
    instrumenting_module_name tracer = at_import /\
    (exists obj,
        store w' !! length (store w) = Some obj /\
        (at_import <> "" ->
         attributes (resource obj) !! "service.name" = Some at_import) /\
        (at_import = "" ->
         exists name,
           attributes (resource obj) !! "service.name" = Some name /\
           has_prefix "unknown_service" name)).
Proof.
  intros Harg at_import. eexists _, _, _.
  split; [reflexivity|]. split; [reflexivity|].
  split; [apply configure_tracing_run|].
  assert (Hs : PyStr.or_else service_name at_import = at_import).
  { destruct Harg as [-> | ->]; reflexivity. }
  cbn [DEFAULT_SERVICE_NAME instrumenting_module_name]. fold at_import.
  rewrite Hs. split; [reflexivity|].
  eexists. split; [apply configured_store_lookup|].
  cbn [resource]. rewrite service_resource_name. split.
  - intros Hne. apply truthy_spec in Hne. rewrite Hne. reflexivity.
  - intros ->. eexists. split; [reflexivity|]. apply unknown_service_prefix.
Qed.

Lemma default_service_name_is_fixed_at_import_witness :
  exists M tracer w',
    import_backends (fresh_world env_at_import)
    = (Ok M, fresh_world env_at_import) /\
    configure_tracing M (Some "") (fresh_world env_at_call) = (Ok tracer, w') /\
    instrumenting_module_name tracer = "name-at-import".
Proof.
  destruct (default_service_name_is_fixed_at_import
              (fresh_world env_at_import) (fresh_world env_at_call) (Some "")
              (or_intror eq_refl))
    as (M & tracer & w' & Himport & _ & Hrun & Hname & _).
  exists M, tracer, w'. repeat split; assumption.
Defined.

(** * Further properties of the code *)

(** ** Strings: prefixes and last characters *)

Lemma has_prefix_app (p s t : string) :
  has_prefix p s -> has_prefix p (s +:+ t).
Proof. intros [u ->]. exists (u +:+ t). apply append_assoc. Qed.

Lemma has_suffix_app (p t : string) : has_suffix p (t +:+ p).
Proof. exists t. reflexivity. Qed.

Lemma last_char_app (t p : string) :
  p <> "" -> last_char (t +:+ p) = last_char p.
Proof.
  intros Hp. induction t as [|c t IH]; [reflexivity|].
  rewrite append_cons. cbn [last_char]. rewrite IH.
  destruct (t +:+ p) eqn:E; [|reflexivity].
  destruct t; [rewrite append_nil_l in E; contradiction | discriminate].
Qed.

(** Two suffixes of one string end with the same character. *)
Lemma suffixes_share_last_char (p q s : string) :
  p <> "" -> q <> "" -> has_suffix p s -> has_suffix q s ->
  last_char p = last_char q.
Proof.
  intros Hp Hq [t ->] [u Hu].
  rewrite <- (last_char_app t p Hp), Hu. apply last_char_app, Hq.
Qed.

Lemma not_traces_suffix_after_otel (s : string) :
  has_suffix "otel" s -> PyStr.endswith "/v1/traces" s = false.
Proof.
  intros Hs. destruct (PyStr.endswith "/v1/traces" s) eqn:E; [|reflexivity].
  apply endswith_spec in E.
  pose proof (suffixes_share_last_char "otel" "/v1/traces" s) as H.
  discriminate H; [discriminate | discriminate | assumption | assumption].
Qed.

Lemma startswith_app (p s t : string) :
  PyStr.startswith p s = true -> PyStr.startswith p (s +:+ t) = true.
Proof. rewrite !startswith_spec. apply has_prefix_app. Qed.

(** ** The transport selector, lines 47-63 *)

(** X2.  Selecting again for the endpoint an exporter ended up with gives the
    same exporter: the [/v1/traces] suffix is never added twice. *)
Theorem transport_selector_idempotent
    (endpoint : string) (headers : option (gmap string string)) :
  exists e,
    exporter_endpoint (_get_otlp_exporter endpoint headers) = Some e /\
    _get_otlp_exporter e headers = _get_otlp_exporter endpoint headers.
Proof.
  unfold _get_otlp_exporter.
  destruct (PyStr.startswith "http://" endpoint || PyStr.startswith "https://" endpoint)
    eqn:Hs.
  - destruct (PyStr.endswith "/v1/traces" endpoint) eqn:He; cbn [negb].
    + exists endpoint. split; [reflexivity|]. rewrite Hs, He. reflexivity.
    + exists (endpoint +:+ "/v1/traces"). split; [reflexivity|].
      assert (Hs' : PyStr.startswith "http://" (endpoint +:+ "/v1/traces")
                    || PyStr.startswith "https://" (endpoint +:+ "/v1/traces")
                    = true).
      { apply orb_true_iff. apply orb_true_iff in Hs as [H | H];
          [left | right]; apply startswith_app, H. }
      assert (He' : PyStr.endswith "/v1/traces" (endpoint +:+ "/v1/traces") = true).
      { apply endswith_spec, has_suffix_app. }
      rewrite Hs', He'. reflexivity.
  - exists endpoint. split; [reflexivity|]. rewrite Hs. reflexivity.
Qed.

(** ** Substrings across a character the pattern does not hold *)

Lemma startswith_before_foreign (c : ascii) (p s b : string) :
  occurs c p = false ->
  PyStr.startswith p (s +:+ String c b) = PyStr.startswith p s.
Proof.
  revert s. induction p as [|y p IH]; intros s Hp; [reflexivity|].
  cbn [occurs] in Hp. apply orb_false_iff in Hp as [Hy Hp].
  destruct s as [|z s].
  - rewrite append_nil_l. cbn [PyStr.startswith]. rewrite Hy. reflexivity.
  - rewrite append_cons. cbn [PyStr.startswith]. rewrite (IH s Hp). reflexivity.
Qed.

Lemma contains_across_foreign (c : ascii) (p a b : string) :
  occurs c p = false ->
  PyStr.contains p (a +:+ String c b) = PyStr.contains p a || PyStr.contains p b.
Proof.
  intros Hp. induction a as [|x a IH].
  - rewrite append_nil_l, contains_unfold.
    rewrite <- (append_nil_l (String c b)), startswith_before_foreign by exact Hp.
    rewrite (contains_unfold p ""), orb_false_r. reflexivity.
  - rewrite append_cons, contains_unfold, IH.
    rewrite <- append_cons, startswith_before_foreign by exact Hp.
    rewrite (contains_unfold p (String x a)), orb_assoc. reflexivity.
Qed.

(** ** The langsmith adapter, lines 97-121 *)

Lemma lookup_set_if_truthy (key : string) (value : option string)
    (m : gmap string string) (k : string) :
  set_if_truthy key value m !! k
  = if decide (key = k)
    then (if PyStr.truthy_opt value then value else m !! k)
    else m !! k.
Proof.
  unfold set_if_truthy, PyStr.truthy_opt.
  destruct value as [v|]; [destruct (PyStr.truthy v)|];
    rewrite ?lookup_insert; destruct (decide (key = k)); reflexivity.
Qed.

Lemma truthy_opt_spec (o : option string) (v : string) :
  (PyStr.truthy_opt o = true /\ o = Some v) <-> (o = Some v /\ v <> "").
Proof.
  split.
  - intros [Ht ->]. split; [reflexivity|]. apply truthy_spec, Ht.
  - intros [-> Hv]. split; [apply truthy_spec, Hv | reflexivity].
Qed.

(** What [set_if_truthy] leaves under its own key, in a map that had no
    such key: the value, when it is set and not empty. *)
Lemma lookup_set_if_truthy_own (key : string) (value : option string)
    (m : gmap string string) (v : string) :
  m !! key = None ->
  set_if_truthy key value m !! key = Some v <-> (value = Some v /\ v <> "").
Proof.
  intros Hm. rewrite lookup_set_if_truthy, decide_True by reflexivity.
  rewrite <- truthy_opt_spec. destruct (PyStr.truthy_opt value).
  - split; [intros ->; auto | intros [_ H]; exact H].
  - rewrite Hm. split; [discriminate | intros [H _]; discriminate].
Qed.

Lemma langsmith_resolve_run (w : World) :
  langsmith_resolve w
  = (Ok (langsmith_endpoint
           (default "https://api.smith.langchain.com"
              (environ w !! "LANGSMITH_ENDPOINT")),
         set_if_truthy "Langsmith-Project" (environ w !! "LANGSMITH_PROJECT")
           (set_if_truthy "x-api-key" (environ w !! "LANGSMITH_API_KEY") ∅)), w).
Proof. reflexivity. Qed.

Lemma phoenix_resolve_run (w : World) :
  phoenix_resolve w
  = (Ok (default "http://localhost:6006" (environ w !! "PHOENIX_ENDPOINT"),
         set_if_truthy "authorization" (environ w !! "PHOENIX_API_KEY") ∅), w).
Proof. reflexivity. Qed.

Lemma langsmith_endpoint_ends_with_otel (api_url : string) :
  has_suffix "/otel" (langsmith_endpoint api_url).
Proof.
  unfold langsmith_endpoint.
  destruct (PyStr.contains "eu.api" api_url).
  - exists "https://eu.api.smith.langchain.com". reflexivity.
  - destruct (PyStr.endswith "/otel" api_url) eqn:E; cbn [negb].
    + apply endswith_spec, E.
    + apply has_suffix_app.
Qed.

(** X3.  For every configuration the langsmith resolver returns without raising
    and leaves the state alone.  Its endpoint is the fixed EU endpoint when
    the API URL (default [https://api.smith.langchain.com]) holds [eu.api];
    otherwise the URL itself when it ends with [/otel], and the URL followed
    by [/otel] when it does not; in every case it ends with [/otel].  Its
    headers hold [x-api-key] exactly when [LANGSMITH_API_KEY] is set to a
    non-empty string, [Langsmith-Project] exactly when [LANGSMITH_PROJECT]
    is, and nothing else. *)
Theorem langsmith_resolver_behaviour (w : World) :
  let env := environ w in
  let api_url :=
    default "https://api.smith.langchain.com" (env !! "LANGSMITH_ENDPOINT") in
  exists endpoint headers,
    langsmith_resolve w = (Ok (endpoint, headers), w) /\
    (has_infix "eu.api" api_url -> endpoint = langsmith_eu_endpoint) /\
    (~ has_infix "eu.api" api_url -> has_suffix "/otel" api_url ->
       endpoint = api_url) /\
    (~ has_infix "eu.api" api_url -> ~ has_suffix "/otel" api_url ->
       endpoint = api_url +:+ "/otel") /\
    has_suffix "/otel" endpoint /\
    (forall v, headers !! "x-api-key" = Some v <->
               (env !! "LANGSMITH_API_KEY" = Some v /\ v <> "")) /\
    (forall v, headers !! "Langsmith-Project" = Some v <->
               (env !! "LANGSMITH_PROJECT" = Some v /\ v <> "")) /\
    (forall k, k <> "x-api-key" -> k <> "Langsmith-Project" ->
               headers !! k = None).
Proof.
  intros env api_url.
  exists (langsmith_endpoint api_url),
    (set_if_truthy "Langsmith-Project" (env !! "LANGSMITH_PROJECT")
       (set_if_truthy "x-api-key" (env !! "LANGSMITH_API_KEY") ∅)).
  split; [reflexivity|].
  split.
  { intros H. apply contains_spec in H. unfold langsmith_endpoint.
    rewrite H. reflexivity. }
  split.
  { intros H1 H2. unfold langsmith_endpoint.
    destruct (PyStr.contains "eu.api" api_url) eqn:E;
      [exfalso; apply H1, contains_spec, E|].
    apply endswith_spec in H2. rewrite H2. reflexivity. }
  split.
  { intros H1 H2. unfold langsmith_endpoint.
    destruct (PyStr.contains "eu.api" api_url) eqn:E;
      [exfalso; apply H1, contains_spec, E|].
    destruct (PyStr.endswith "/otel" api_url) eqn:E2; [|reflexivity].
    exfalso. apply H2, endswith_spec, E2. }
  split; [apply langsmith_endpoint_ends_with_otel|].
  split; [|split].
  - intros v. rewrite lookup_set_if_truthy, decide_False by discriminate.
    apply lookup_set_if_truthy_own, lookup_empty.
  - intros v. apply lookup_set_if_truthy_own.
    rewrite lookup_set_if_truthy, decide_False by discriminate.
    apply lookup_empty.
  - intros k Hk1 Hk2.
    rewrite !lookup_set_if_truthy, !decide_False by congruence.
    apply lookup_empty.
Qed.

(** X4.  Resolving an endpoint that is already resolved changes nothing: [/otel]
    is never added twice, and the EU endpoint maps to itself. *)
Theorem langsmith_endpoint_idempotent (api_url : string) :
  langsmith_endpoint (langsmith_endpoint api_url) = langsmith_endpoint api_url.
Proof.
  destruct (PyStr.contains "eu.api" api_url) eqn:Heu.
  - assert (E : langsmith_endpoint api_url = langsmith_eu_endpoint).
    { unfold langsmith_endpoint. rewrite Heu. reflexivity. }
    rewrite E. reflexivity.
  - destruct (PyStr.endswith "/otel" api_url) eqn:Hend.
    + assert (E : langsmith_endpoint api_url = api_url).
      { unfold langsmith_endpoint. rewrite Heu, Hend. reflexivity. }
      rewrite E. exact E.
    + assert (E : langsmith_endpoint api_url = api_url +:+ String "/" "otel").
      { unfold langsmith_endpoint. rewrite Heu, Hend. reflexivity. }
      rewrite E. unfold langsmith_endpoint.
      rewrite contains_across_foreign by reflexivity. rewrite Heu. cbn [orb].
      replace (PyStr.contains "eu.api" "otel") with false by reflexivity.
      replace (PyStr.endswith "/otel" (api_url +:+ String "/" "otel")) with true;
        [reflexivity|].
      symmetry. apply endswith_spec. apply (has_suffix_app "/otel").
Qed.

Lemma has_suffix_tail (c : ascii) (p s : string) :
  has_suffix (String c p) s -> has_suffix p s.
Proof.
  intros [t ->]. exists (t +:+ String c ""). rewrite append_assoc. reflexivity.
Qed.

(** X5.  When the API URL holds [eu.api] or starts with an HTTP scheme, which
    includes the default, the adapter returns without raising and adds to
    the provider one batching processor around the HTTP exporter, whose
    endpoint is the resolved endpoint followed by [/v1/traces]. *)
Theorem langsmith_adapter_attaches_http (provider : nat) (w : World) :
  let env := environ w in
  let api_url :=
    default "https://api.smith.langchain.com" (env !! "LANGSMITH_ENDPOINT") in
  has_infix "eu.api" api_url \/ has_prefix "http://" api_url
  \/ has_prefix "https://" api_url ->
  exists headers,
    langsmith_resolve w = (Ok (langsmith_endpoint api_url, headers), w) /\
    _setup_langsmith_otlp provider w
    = (Ok tt,
       with_store
         (alter
            (with_processor
               (BatchSpanProcessor
                  (HttpOTLPSpanExporter
                     (langsmith_endpoint api_url +:+ "/v1/traces") (Some headers))))
            provider (store w)) w).
Proof.
  intros env api_url Hurl. eexists. split; [apply langsmith_resolve_run|].
  unfold _setup_langsmith_otlp.
  rewrite (bind_ok _ _ _ _ _ (langsmith_resolve_run w)).
  unfold attach_otlp, add_span_processor. cbn [fst snd]. fold env. fold api_url.
  assert (Hscheme : PyStr.startswith "http://" (langsmith_endpoint api_url)
                    || PyStr.startswith "https://" (langsmith_endpoint api_url)
                    = true).
  { unfold langsmith_endpoint.
    destruct (PyStr.contains "eu.api" api_url) eqn:Heu; [reflexivity|].
    destruct Hurl as [H | H];
      [apply contains_spec in H; congruence|].
    apply orb_true_iff.
    destruct H as [H | H]; [left | right]; apply startswith_spec in H;
      destruct (negb (PyStr.endswith "/otel" api_url));
      auto using startswith_app. }
  assert (Hend : PyStr.endswith "/v1/traces" (langsmith_endpoint api_url) = false).
  { apply not_traces_suffix_after_otel, (has_suffix_tail "/"),
      langsmith_endpoint_ends_with_otel. }
  unfold _get_otlp_exporter. rewrite Hscheme, Hend. reflexivity.
Qed.

Lemma langsmith_adapter_attaches_http_witness :
  exists headers,
    _setup_langsmith_otlp 0 (installed "svc" (fresh_world ∅))
    = (Ok tt,
       with_store
         [{| resource := service_resource "svc" (fresh_world ∅);
             span_processors :=
               [BatchSpanProcessor
                  (HttpOTLPSpanExporter
                     "https://api.smith.langchain.com/otel/v1/traces"
                     (Some headers))] |}]
         (installed "svc" (fresh_world ∅))).
Proof.
  destruct (langsmith_adapter_attaches_http 0 (installed "svc" (fresh_world ∅)))
    as (headers & _ & Hrun).
  - right. right. exists "api.smith.langchain.com". reflexivity.
  - exists headers. exact Hrun.
Defined.

(** ** The langfuse adapter, lines 66-94 *)

Lemma langfuse_endpoint_ends_with_otel (host : string) :
  has_suffix "/api/public/otel" (langfuse_endpoint host).
Proof.
  unfold langfuse_endpoint.
  destruct (PyStr.contains "cloud.langfuse.com" host).
  - destruct (PyStr.contains "us.cloud" host).
    + exists "https://us.cloud.langfuse.com". reflexivity.
    + exists "https://cloud.langfuse.com". reflexivity.
  - apply has_suffix_app.
Qed.

Lemma has_suffix_drop (a p s : string) :
  has_suffix (a +:+ p) s -> has_suffix p s.
Proof. intros [t ->]. exists (t +:+ a). rewrite append_assoc. reflexivity. Qed.

(** X6.  When the host (default [http://localhost:3000]) holds the cloud
    domain or starts with an HTTP scheme, the adapter returns without
    raising and adds to the provider one batching processor around an
    exporter of the HTTP class, constructed with the endpoint the resolver
    gives followed by [/v1/traces] (so an endpoint that always ends with
    [/api/public/otel/v1/traces]) and with the resolver's map as [headers=]
    argument. *)
Theorem langfuse_adapter_attaches_http (provider : nat) (w : World) :
  let env := environ w in
  let host := default "http://localhost:3000" (env !! "LANGFUSE_HOST") in
  has_infix "cloud.langfuse.com" host \/ has_prefix "http://" host
  \/ has_prefix "https://" host ->
  exists headers,
    langfuse_resolve w = (Ok (langfuse_endpoint host, headers), w) /\
    has_suffix "/api/public/otel/v1/traces"
      (langfuse_endpoint host +:+ "/v1/traces") /\
    _setup_langfuse_otlp provider w
    = (Ok tt,
       with_store
         (alter
            (with_processor
               (BatchSpanProcessor
                  (HttpOTLPSpanExporter
                     (langfuse_endpoint host +:+ "/v1/traces") (Some headers))))
            provider (store w)) w).
Proof.
  intros env host Hhost. eexists. split; [apply langfuse_resolve_run|].
  split.
  { destruct (langfuse_endpoint_ends_with_otel host) as [t ->].
    exists t. rewrite append_assoc. reflexivity. }
  unfold _setup_langfuse_otlp.
  rewrite (bind_ok _ _ _ _ _ (langfuse_resolve_run w)).
  unfold attach_otlp, add_span_processor. cbn [fst snd].
  fold env. fold host.
  assert (Hscheme : PyStr.startswith "http://" (langfuse_endpoint host)
                    || PyStr.startswith "https://" (langfuse_endpoint host)
                    = true).
  { unfold langfuse_endpoint.
    destruct (PyStr.contains "cloud.langfuse.com" host) eqn:Hc.
    - destruct (PyStr.contains "us.cloud" host); reflexivity.
    - destruct Hhost as [H | H]; [apply contains_spec in H; congruence|].
      apply orb_true_iff.
      destruct H as [H | H]; [left | right];
        apply startswith_app, startswith_spec, H. }
  assert (Hend : PyStr.endswith "/v1/traces" (langfuse_endpoint host) = false).
  { apply not_traces_suffix_after_otel, (has_suffix_drop "/api/public/"),
      langfuse_endpoint_ends_with_otel. }
  unfold _get_otlp_exporter. rewrite Hscheme, Hend. reflexivity.
Qed.

Lemma langfuse_adapter_attaches_http_witness :
  exists headers,
    _setup_langfuse_otlp 0 (installed "svc" (fresh_world ∅))
    = (Ok tt,
       with_store
         [{| resource := service_resource "svc" (fresh_world ∅);
             span_processors :=
               [BatchSpanProcessor
                  (HttpOTLPSpanExporter
                     "http://localhost:3000/api/public/otel/v1/traces"
                     (Some headers))] |}]
         (installed "svc" (fresh_world ∅))).
Proof.
  destruct (langfuse_adapter_attaches_http 0 (installed "svc" (fresh_world ∅)))
    as (headers & _ & _ & Hrun).
  - right. left. exists "localhost:3000". reflexivity.
  - exists headers. exact Hrun.
Defined.

(** ** The phoenix adapter, lines 124-137 *)

(** X7.  For every configuration the phoenix adapter returns without
    raising.  The endpoint it resolves is [PHOENIX_ENDPOINT] as set, even
    when set to the empty string, and [http://localhost:6006] only when the
    variable is unset.  The headers it resolves hold [authorization] exactly
    when [PHOENIX_API_KEY] is set to a non-empty string, and nothing else.
    The provider gets one batching processor around the exporter that the
    transport selector constructs from the two; when the endpoint is unset
    that is an exporter of the HTTP class constructed with the endpoint
    [http://localhost:6006/v1/traces]. *)
Theorem phoenix_adapter_behaviour (provider : nat) (w : World) :
  let env := environ w in
  let endpoint := default "http://localhost:6006" (env !! "PHOENIX_ENDPOINT") in
  exists headers,
    phoenix_resolve w = (Ok (endpoint, headers), w) /\
    (forall v, env !! "PHOENIX_ENDPOINT" = Some v -> endpoint = v) /\
    (forall v, headers !! "authorization" = Some v <->
               (env !! "PHOENIX_API_KEY" = Some v /\ v <> "")) /\
    (forall k, k <> "authorization" -> headers !! k = None) /\
    _setup_phoenix_otlp provider w
    = (Ok tt,
       with_store
         (alter
            (with_processor
               (BatchSpanProcessor (_get_otlp_exporter endpoint (Some headers))))
            provider (store w)) w) /\
    (env !! "PHOENIX_ENDPOINT" = None ->
     _get_otlp_exporter endpoint (Some headers)
     = HttpOTLPSpanExporter "http://localhost:6006/v1/traces" (Some headers)).
Proof.
  intros env endpoint. eexists. split; [apply phoenix_resolve_run|].
  fold env. split; [|split; [|split; [|split]]].
  - intros v Hv. unfold endpoint. rewrite Hv. reflexivity.
  - intros v. apply lookup_set_if_truthy_own, lookup_empty.
  - intros k Hk. rewrite lookup_set_if_truthy, decide_False by congruence.
    apply lookup_empty.
  - unfold _setup_phoenix_otlp.
    rewrite (bind_ok _ _ _ _ _ (phoenix_resolve_run w)). reflexivity.
  - intros Hunset. unfold endpoint. rewrite Hunset. reflexivity.
Qed.

(** ** The header parser, lines 147-155 *)

Lemma occurs_app (c : ascii) (a b : string) :
  occurs c (a +:+ b) = occurs c a || occurs c b.
Proof.
  induction a as [|x a IH]; [reflexivity|].
  rewrite append_cons. cbn [occurs]. rewrite IH, orb_assoc. reflexivity.
Qed.

Lemma split_nonempty (sep : ascii) (m : option nat) (s : string) :
  PyStr.split sep m s <> [].
Proof.
  destruct s as [|c s]; [discriminate|]. rewrite split_unfold.
  destruct (Ascii.eqb c sep && PyStr.may_split m); [discriminate|].
  destruct (PyStr.split sep m s); discriminate.
Qed.

(** Cutting at every separator distributes over a separator. *)
Lemma split_app_sep (sep : ascii) (a b : string) :
  PyStr.split sep None (a +:+ String sep b)
  = PyStr.split sep None a ++ PyStr.split sep None b.
Proof.
  induction a as [|c a IH].
  - rewrite append_nil_l, split_unfold, Ascii.eqb_refl. reflexivity.
  - rewrite append_cons, !split_unfold.
    cbn [PyStr.may_split PyStr.after_split]. rewrite IH, andb_true_r.
    destruct (Ascii.eqb c sep); [reflexivity|].
    pose proof (split_nonempty sep None a) as Hne.
    destruct (PyStr.split sep None a); [contradiction | reflexivity].
Qed.

Lemma split_pieces_without (d sep : ascii) (m : option nat) (s : string) :
  occurs d s = false ->
  Forall (fun piece => occurs d piece = false) (PyStr.split sep m s).
Proof.
  revert m. induction s as [|c s IH]; intros m Hs; [repeat constructor|].
  cbn [occurs] in Hs. apply orb_false_iff in Hs as [Hc Hs].
  rewrite split_unfold. destruct (Ascii.eqb c sep && PyStr.may_split m).
  - constructor; [reflexivity | apply IH, Hs].
  - specialize (IH m Hs). destruct (PyStr.split sep m s) as [|piece rest].
    + repeat constructor. cbn [occurs]. rewrite Hc. reflexivity.
    + inversion IH; subst. constructor; [|assumption].
      cbn [occurs]. rewrite Hc. assumption.
Qed.

Lemma add_segment_union (m : gmap string string) (segment : string) :
  add_segment m segment = add_segment ∅ segment ∪ m.
Proof.
  unfold add_segment. destruct (header_of_segment segment) as [[k v]|].
  - rewrite insert_empty. apply insert_union_singleton_l.
  - symmetry. apply (left_id_L ∅ (∪)).
Qed.

(** Folding the segments into a map is folding them into the empty map and
    laying the result over the map: later segments win. *)
Lemma foldl_add_segment_union (segments : list string) (m : gmap string string) :
  foldl add_segment m segments = foldl add_segment ∅ segments ∪ m.
Proof.
  revert m. induction segments as [|seg rest IH]; intros m.
  - symmetry. apply (left_id_L ∅ (∪)).
  - cbn [foldl]. rewrite (IH (add_segment m seg)), (IH (add_segment ∅ seg)).
    rewrite (add_segment_union m seg).
    apply (assoc_L (∪)).
Qed.

(** X8.  Parsing [a,b] is parsing [a] and [b] and letting the headers of [b]
    override those of [a]: a key repeated later in the string wins. *)
Theorem parse_headers_of_joined (a b : string) (w : World) :
  exists ha hb,
    parse_headers a w = (Ok ha, w) /\
    parse_headers b w = (Ok hb, w) /\
    parse_headers (a +:+ "," +:+ b) w = (Ok (hb ∪ ha), w).
Proof.
  exists (headers_by_policy a), (headers_by_policy b).
  rewrite !parse_headers_run. repeat split.
  unfold headers_by_policy.
  change (a +:+ "," +:+ b) with (a +:+ String "," b).
  rewrite split_app_sep, foldl_app, foldl_add_segment_union. reflexivity.
Qed.

(** X9.  A string without any [=] holds no header: the parser returns the empty
    map (it does not raise). *)
Theorem parse_headers_without_equals (headers_str : string) (w : World) :
  occurs "=" headers_str = false ->
  parse_headers headers_str w = (Ok ∅, w).
Proof.
  intros Hno. rewrite parse_headers_run. f_equal. f_equal.
  unfold headers_by_policy.
  pose proof (split_pieces_without "=" "," None headers_str Hno) as Hall.
  induction Hall as [|seg rest Hseg _ IH]; [reflexivity|].
  cbn [foldl]. unfold add_segment at 2, header_of_segment.
  rewrite Hseg. exact IH.
Qed.

Lemma parse_headers_without_equals_witness :
  parse_headers "Bearer abc, gzip" (fresh_world ∅) = (Ok ∅, fresh_world ∅).
Proof.
  apply (parse_headers_without_equals "Bearer abc, gzip" (fresh_world ∅)).
  reflexivity.
Defined.

(** *** Trimming is idempotent and adds no character *)

Lemma rstrip_idempotent (s : string) :
  PyStr.rstrip (PyStr.rstrip s) = PyStr.rstrip s.
Proof.
  induction s as [|c s IH]; [reflexivity|].
  rewrite rstrip_unfold. destruct (PyStr.rstrip s) as [|b r] eqn:E.
  - destruct (PyStr.isspace c) eqn:Hc; [reflexivity|].
    rewrite rstrip_unfold. cbn [PyStr.rstrip]. rewrite Hc. reflexivity.
  - rewrite rstrip_unfold, IH. reflexivity.
Qed.

Lemma strip_idempotent (s : string) : trimmed (PyStr.strip s).
Proof.
  unfold trimmed, PyStr.strip.
  destruct (PyStr.lstrip s) as [|c t] eqn:E; [reflexivity|].
  pose proof (lstrip_head _ _ _ E) as Hc.
  destruct (rstrip_keeps_head c t Hc) as [r Hr].
  rewrite Hr. cbn [PyStr.lstrip]. rewrite Hc, <- Hr.
  apply rstrip_idempotent.
Qed.

Lemma occurs_strip (c : ascii) (s : string) :
  occurs c s = false -> occurs c (PyStr.strip s) = false.
Proof.
  intros Hs. destruct (strip_decompose s) as (l & r & Hdec & _).
  rewrite Hdec, !occurs_app in Hs.
  apply orb_false_iff in Hs as [_ Hs]. apply orb_false_iff in Hs as [Hs _].
  exact Hs.
Qed.

Lemma before_first_has_no_sep (c : ascii) (s : string) :
  occurs c (before_first c s) = false.
Proof.
  induction s as [|a s IH]; [reflexivity|].
  cbn [before_first]. destruct (Ascii.eqb a c) eqn:E; [reflexivity|].
  cbn [occurs]. rewrite E. exact IH.
Qed.

Lemma occurs_before_first (d c : ascii) (s : string) :
  occurs d s = false -> occurs d (before_first c s) = false.
Proof.
  induction s as [|a s IH]; [reflexivity|].
  cbn [occurs before_first]. intros H. apply orb_false_iff in H as [Ha Hs].
  destruct (Ascii.eqb a c); [reflexivity|].
  cbn [occurs]. rewrite Ha. auto.
Qed.

Lemma occurs_after_first (d c : ascii) (s : string) :
  occurs d s = false -> occurs d (after_first c s) = false.
Proof.
  induction s as [|a s IH]; [reflexivity|].
  cbn [occurs after_first]. intros H. apply orb_false_iff in H as [Ha Hs].
  destruct (Ascii.eqb a c); auto.
Qed.

Lemma foldl_add_segment_clean (segments : list string) (m : gmap string string) :
  Forall (fun piece => occurs "," piece = false) segments ->
  (forall k v, m !! k = Some v -> clean_header k v) ->
  forall k v, foldl add_segment m segments !! k = Some v -> clean_header k v.
Proof.
  intros Hall. revert m. induction Hall as [|seg rest Hseg _ IH]; intros m Hm.
  - exact Hm.
  - cbn [foldl]. apply IH. intros k v.
    unfold add_segment, header_of_segment.
    destruct (occurs "=" seg); [|apply Hm].
    rewrite lookup_insert. destruct (decide _) as [<-|]; [|apply Hm].
    intros [= <-]. unfold clean_header.
    repeat split;
      auto using strip_idempotent, occurs_strip, before_first_has_no_sep,
        occurs_before_first, occurs_after_first.
Qed.

(** X10.  For every header string, every header the parser returns has a key and
    a value that trimming leaves unchanged (no white space at either end);
    the key holds neither [=] nor a comma, and the value holds no comma. *)
Theorem parsed_headers_are_clean (headers_str : string) (w : World) :
  exists headers,
    parse_headers headers_str w = (Ok headers, w) /\
    forall k v, headers !! k = Some v -> clean_header k v.
Proof.
  eexists. split; [apply parse_headers_run|].
  unfold headers_by_policy. apply foldl_add_segment_clean.
  - apply split_pieces_clean.
  - intros k v H. rewrite lookup_empty in H. discriminate.
Qed.

(** ** The resolvers and the variables they read *)

Ltac use_agreement H :=
  repeat match goal with
         | |- context [?env !! ?k] =>
             lazymatch type of H with
             | agree_on _ env _ => rewrite (H k) by set_solver
             end
         end.

(** X11.  The endpoint and the headers each adapter resolves, which are
    what it hands to the transport selector, depend on the environment only
    through the adapter's own variables: after any change of the
    environment that leaves those as they are, the resolver returns the
    same pair. *)
Theorem resolvers_read_only_their_variables
    (w : World) (env' : gmap string string) :
  let w' := with_environ env' w in
  (agree_on langfuse_vars (environ w) env' ->
   (langfuse_resolve w').1 = (langfuse_resolve w).1) /\
  (agree_on langsmith_vars (environ w) env' ->
   (langsmith_resolve w').1 = (langsmith_resolve w).1) /\
  (agree_on phoenix_vars (environ w) env' ->
   (phoenix_resolve w').1 = (phoenix_resolve w).1) /\
  (agree_on generic_otlp_vars (environ w) env' ->
   (generic_otlp_resolve w').1 = (generic_otlp_resolve w).1).
Proof.
  intros w'. unfold w'.
  rewrite !langfuse_resolve_run, !langsmith_resolve_run, !phoenix_resolve_run,
    !generic_otlp_resolve_run.
  cbn [fst environ with_environ].
  repeat split; intros H.
  - unfold langfuse_vars in *. use_agreement H. reflexivity.
  - unfold langsmith_vars in *. use_agreement H. reflexivity.
  - unfold phoenix_vars in *. use_agreement H. reflexivity.
  - unfold generic_endpoint, generic_otlp_vars in *.
    use_agreement H. reflexivity.
Qed.

(** ** The dispatcher, lines 166-209 *)

Lemma configure_tracing_state (M : Module) (service_name : option string)
    (w : World) :
  (configure_tracing M service_name w).2
  = configured (backend_of w)
      (PyStr.or_else service_name (DEFAULT_SERVICE_NAME M)) w.
Proof. rewrite configure_tracing_run. reflexivity. Qed.

(** X12.  A backend name is recognized in any mix of upper and lower case: when
    the lower-cased value of [TRACING_BACKEND] is [langfuse], [langsmith],
    [phoenix] or [console], the call runs that adapter, and for [otlp] the
    generic one; the provider the call builds carries that adapter's
    exporter. *)
Theorem named_backend_selects_its_adapter
    (M : Module) (service_name : option string) (w : World) (v : string) :
  environ w !! "TRACING_BACKEND" = Some v ->
  let service := PyStr.or_else service_name (DEFAULT_SERVICE_NAME M) in
  let run := configure_tracing M service_name w in
  let env := environ w in
  exists tracer w' obj,
    run = (Ok tracer, w') /\
    store w' !! length (store w) = Some obj /\
    (PyStr.lower v = "langfuse" ->
     run = configure_via _setup_langfuse_otlp service w /\
     span_processors obj = [BatchSpanProcessor (langfuse_exporter env)]) /\
    (PyStr.lower v = "langsmith" ->
     run = configure_via _setup_langsmith_otlp service w /\
     span_processors obj = [BatchSpanProcessor (langsmith_exporter env)]) /\
    (PyStr.lower v = "phoenix" ->
     run = configure_via _setup_phoenix_otlp service w /\
     span_processors obj = [BatchSpanProcessor (phoenix_exporter env)]) /\
    (PyStr.lower v = "console" ->
     run = configure_via _setup_console service w /\
     span_processors obj = [BatchSpanProcessor ConsoleSpanExporter]) /\
    (PyStr.lower v = "otlp" ->
     run = configure_via _setup_generic_otlp service w /\
     span_processors obj = [BatchSpanProcessor (generic_exporter env)]).
Proof.
  intros Hv service run env.
  assert (Hb : backend_of w = PyStr.lower v).
  { unfold backend_of. rewrite Hv. reflexivity. }
  eexists _, _, _. split; [apply configure_tracing_run|].
  split; [apply configured_store_lookup|].
  unfold run. rewrite configure_tracing_dispatch, Hb. cbn [span_processors].
  repeat split; rewrite H; reflexivity.
Qed.

Lemma named_backend_selects_its_adapter_witness :
  exists tracer w',
    configure_tracing default_module None (fresh_world env_langsmith_eu)
    = (Ok tracer, w') /\
    span_processors <$> store w'
    = [[BatchSpanProcessor
          (HttpOTLPSpanExporter
             "https://eu.api.smith.langchain.com/otel/v1/traces"
             (Some (<["x-api-key" := "key"]> ∅)))]].
Proof.
  assert (Hv : environ (fresh_world env_langsmith_eu) !! "TRACING_BACKEND"
               = Some "LangSmith") by reflexivity.
  destruct (named_backend_selects_its_adapter
              default_module None (fresh_world env_langsmith_eu) "LangSmith" Hv)
    as (tracer & w' & obj & Hrun & _).
  exists tracer, w'. split; [exact Hrun|].
  vm_compute in Hrun. injection Hrun as <- <-. reflexivity.
Defined.

(** X13.  What a call changes and what it leaves alone, for every argument,
    environment and behaviour of the instrumentation: it returns a tracer
    named after the service; the environment and the provider objects built
    before are as they were; exactly one provider object is added, with
    exactly one processor, a batching one.  The resource of that provider
    carries the service name when it is not empty, the version
    ([OTEL_SERVICE_VERSION], default [0.1.0]) and the deployment environment
    ([OTEL_ENVIRONMENT], default [dev]); every other attribute of it is one
    the SDK provides.  At most one line is printed. *)
Theorem configure_tracing_frame
    (M : Module) (service_name : option string) (w : World) :
  let service := PyStr.or_else service_name (DEFAULT_SERVICE_NAME M) in
  exists tracer w' obj exporter,
    configure_tracing M service_name w = (Ok tracer, w') /\
    instrumenting_module_name tracer = service /\
    environ w' = environ w /\
    store w' = store w ++ [obj] /\
    span_processors obj = [BatchSpanProcessor exporter] /\
    (service <> "" ->
     attributes (resource obj) !! "service.name" = Some service) /\
    attributes (resource obj) !! "service.version"
    = Some (default "0.1.0" (environ w !! "OTEL_SERVICE_VERSION")) /\
    attributes (resource obj) !! "deployment.environment"
    = Some (default "dev" (environ w !! "OTEL_ENVIRONMENT")) /\
    (forall k, k <> "service.name" -> k <> "service.version" ->
               k <> "deployment.environment" ->
               attributes (resource obj) !! k = detected_resource w !! k) /\
    (stdout w' = stdout w \/ exists line, stdout w' = stdout w ++ [line]).
Proof.
  intros service. eexists _, _, _, _.
  split; [apply configure_tracing_run|].
  cbn [configured instrumenting_module_name environ store stdout].
  split; [reflexivity|]. split; [reflexivity|]. split; [reflexivity|].
  cbn [span_processors resource]. split; [reflexivity|].
  fold service. split.
  { intros Hne. rewrite service_resource_name.
    apply truthy_spec in Hne. rewrite Hne. reflexivity. }
  unfold service_resource, service_attributes.
  split.
  { rewrite created_resource_other by discriminate.
    apply lookup_union_Some_l.
    rewrite lookup_insert_ne by discriminate. apply lookup_insert_eq. }
  split.
  { rewrite created_resource_other by discriminate.
    apply lookup_union_Some_l.
    rewrite !lookup_insert_ne by discriminate. apply lookup_insert_eq. }
  split.
  { intros k H1 H2 H3. rewrite created_resource_other by exact H1.
    apply lookup_union_r.
    rewrite !lookup_insert_ne by congruence. apply lookup_empty. }
  destruct (raised w); eauto.
Qed.

(** *** Successive calls *)

Lemma one_batch_processor_configured (backend service : string) (w : World) :
  Forall one_batch_processor (store w) ->
  Forall one_batch_processor (store (configured backend service w)).
Proof.
  intros H. cbn [configured store]. apply Forall_app. split; [exact H|].
  repeat constructor. eexists. reflexivity.
Qed.

(** X14.  For every run of successive calls in one process, whatever the
    arguments and the environments in between: every call adds one provider
    object and none changes an older one; from the first call on, the
    global provider is the one installed first, and never a later one; and
    every provider a call builds has exactly one batching processor. *)
Theorem repeated_calls_keep_first_provider
    (M : Module) (calls : list (option string * gmap string string))
    (w : World) :
  let w' := run_calls M calls w in
  length (store w') = length (store w) + length calls /\
  (forall i, i < length (store w) -> store w' !! i = store w !! i) /\
  (calls <> [] ->
   _TRACER_PROVIDER w'
   = Some (default (length (store w)) (_TRACER_PROVIDER w))) /\
  (Forall one_batch_processor (store w) ->
   Forall one_batch_processor (store w')).
Proof.
  revert w. induction calls as [|[sn env] rest IH]; intros w.
  - cbn [run_calls length]. repeat split; auto; try lia. congruence.
  - cbn [run_calls]. rewrite configure_tracing_state.
    set (w1 := configured _ _ _).
    destruct (IH w1) as (Hlen & Hold & Hglobal & Hone).
    assert (Hlen1 : length (store w1) = S (length (store w))).
    { unfold w1. cbn [configured store with_environ].
      rewrite length_app. cbn [length]. lia. }
    assert (Hg1 : _TRACER_PROVIDER w1
                  = Some (default (length (store w)) (_TRACER_PROVIDER w))).
    { reflexivity. }
    cbv zeta. split; [|split; [|split]].
    + rewrite Hlen, Hlen1. cbn [length]. lia.
    + intros i Hi. rewrite Hold by lia.
      unfold w1. apply (configured_keeps_older _ _ (with_environ env w) i Hi).
    + intros _. destruct rest as [|c rest'].
      * cbn [run_calls]. exact Hg1.
      * rewrite Hglobal by discriminate. rewrite Hg1. reflexivity.
    + intros H. apply Hone.
      apply (one_batch_processor_configured _ _ (with_environ env w)), H.
Qed.

(** ** The script's call, [run_demo.py] lines 27-29 *)

(** X15.  For every state of the process the script's call returns a
    tracer.  Its name is the value [OTEL_SERVICE_NAME] has when the call is
    made whenever that value is not empty ([tracing-tutorial] when the
    variable is unset), also when [backends] was imported earlier under
    another value; and in every case when the import happens in the call.
    Only when the variable is empty at the call and the module was imported
    before is it the module's default.  Whenever the name is not empty it
    is also the service name of the resource of the provider the call
    builds. *)
Theorem main_uses_call_time_service_name
    (imported : option Module) (w : World) :
  let name := default "tracing-tutorial" (environ w !! "OTEL_SERVICE_NAME") in
  exists tracer w' obj,
    main_configure imported w = (Ok tracer, w') /\
    store w' !! length (store w) = Some obj /\
    (instrumenting_module_name tracer <> "" ->
     attributes (resource obj) !! "service.name"
     = Some (instrumenting_module_name tracer)) /\
    (name <> "" -> instrumenting_module_name tracer = name) /\
    (imported = None -> instrumenting_module_name tracer = name) /\
    (forall M, imported = Some M -> name = "" ->
               instrumenting_module_name tracer = DEFAULT_SERVICE_NAME M).
Proof.
  intros name.
  set (M := match imported with
            | Some M => M
            | None => {| DEFAULT_SERVICE_NAME := name |}
            end).
  assert (Hrun : main_configure imported w
                 = configure_tracing M (Some name) w).
  { unfold main_configure, M. destruct imported; reflexivity. }
  rewrite Hrun. eexists _, _, _.
  split; [apply configure_tracing_run|].
  split; [apply configured_store_lookup|].
  cbn [instrumenting_module_name resource].
  split.
  { intros Hne. rewrite service_resource_name.
    apply truthy_spec in Hne. rewrite Hne. reflexivity. }
  unfold PyStr.or_else. destruct (PyStr.truthy name) eqn:Ht.
  - repeat split; try reflexivity.
    intros M' _ Hname. apply truthy_spec in Ht. contradiction.
  - assert (Hname : name = "").
    { unfold PyStr.truthy in Ht. apply negb_false_iff, String.eqb_eq in Ht.
      exact Ht. }
    split; [intros H; contradiction|]. split.
    + intros ->. unfold M. cbn [DEFAULT_SERVICE_NAME]. reflexivity.
    + intros M' -> _. reflexivity.
Qed.
